(** * cfioretti/calculator: the metrics instrumentation layer

    A shallow embedding of

      - [internal/domain/metrics/calculator_metrics.go]
        (the [CalculatorMetrics] interface, [CalculationResult],
        [MetricsRecorder.RecordCalculation]),
      - the gRPC metrics middleware (package [middleware]:
        [UnaryServerInterceptor] and its helper functions),
      - the mock sink of the repository's tests,

    followed by the properties of the method classifier, the error
    taxonomy, the recorder and the interceptor.

    Conventions.  Go strings are byte strings: [string].  Go [int] and
    [time.Duration] are 64-bit integers: [Z] with the wrap-around written
    out.  [float64] is the kernel's binary64 [float].  A method with a
    pointer receiver becomes a function from the receiver's state to its new
    state.  An operation that can panic (indexing, slicing) lives in the
    [outcome] monad. *)

From Stdlib Require Import ZArith Floats Ascii String List Bool Lia.
From stdpp Require Import base option list gmap strings.

Open Scope string_scope.
Open Scope list_scope.

(** ** Panics *)

(** A Go computation either returns a value or panics at run time. *)
Inductive outcome (A : Type) : Type :=
| Returns (a : A)
| Panics (reason : string).
Arguments Returns {A} a.
Arguments Panics {A} reason.

Definition obind {A B : Type} (c : outcome A) (k : A → outcome B) : outcome B :=
  match c with
  | Returns a => k a
  | Panics r => Panics r
  end.

Declare Scope go_scope.
Delimit Scope go_scope with go.
Notation "x <~ c ;; k" := (obind c (fun x => k))
  (at level 100, c at next level, right associativity) : go_scope.
Open Scope go_scope.

(** ** Go's string and slice primitives *)

Module gostr.

(** [len(s)] *)
Definition len (s : string) : nat := String.length s.

(** [s[i]]: panics when [i] is out of range. *)
Definition index (s : string) (i : nat) : outcome ascii :=
  match String.get i s with
  | Some c => Returns c
  | None => Panics "index out of range"
  end.

(** [s[lo:hi]]: panics unless [lo <= hi <= len(s)]. *)
Definition slice (s : string) (lo hi : nat) : outcome string :=
  if (lo <=? hi)%nat && (hi <=? len s)%nat
  then Returns (String.substring lo (hi - lo) s)
  else Panics "slice bounds out of range".

(** [xs[i]] on a slice of strings. *)
Definition elem (xs : list string) (i : nat) : outcome string :=
  match xs !! i with
  | Some x => Returns x
  | None => Panics "index out of range"
  end.

End gostr.

(** ** Go's [int] *)

Module goint.

Definition wrap (z : Z) : Z := ((z + 2 ^ 63) mod 2 ^ 64 - 2 ^ 63)%Z.
Definition add (a b : Z) : Z := wrap (a + b).
Definition sub (a b : Z) : Z := wrap (a - b).

End goint.

(** ** Package [time], as far as the middleware uses it *)

Module time.

(** [time.Duration]: a signed 64-bit count of nanoseconds. *)
Definition Duration : Type := Z.

(** The handler runs in a world [W] that carries the clock: [Now] reads
    it, [Since start] is the time elapsed from [start] to the reading of
    the current world. *)
Class Clock (W : Type) : Type := {
  Time : Type;
  Now : W → Time;
  Since : Time → W → Duration
}.

End time.

(** ** gRPC status codes and errors (package [google.golang.org/grpc]) *)

Module codes.

(** The status codes of [google.golang.org/grpc/codes], in their
    numerical order. *)
Inductive Code : Set :=
| OK | Canceled | Unknown | InvalidArgument | DeadlineExceeded | NotFound
| AlreadyExists | PermissionDenied | ResourceExhausted | FailedPrecondition
| Aborted | OutOfRange | Unimplemented | Internal | Unavailable | DataLoss
| Unauthenticated.

End codes.

(** A non-nil Go [error] value: either one that carries a gRPC status (as
    built by [status.Error], or any error with a [GRPCStatus] method), or an
    unstructured one (as built by [errors.New]). *)
Inductive errorValue : Type :=
| StatusError (c : codes.Code) (msg : string)
| PlainError (msg : string).

(** A Go value of type [error]; [None] is [nil]. *)
Definition error : Type := option errorValue.

Module status.

Record Status : Type := { code : codes.Code; message : string }.

(** [status.FromError]: [nil] gives a nil status and [true]; an error
    carrying a status gives that status and [true]; any other error gives
    a status of code [Unknown] and [false]. *)
Definition FromError (err : error) : option Status * bool :=
  match err with
  | None => (None, true)
  | Some (StatusError c msg) => (Some {| code := c; message := msg |}, true)
  | Some (PlainError msg) =>
      (Some {| code := codes.Unknown; message := msg |}, false)
  end.

(** The method [Code] of a status pointer: a nil status has code [OK]. *)
Definition Code (st : option Status) : codes.Code :=
  match st with
  | None => codes.OK
  | Some s => code s
  end.

End status.

(** ** Package [middleware]: the helper functions *)

Definition calculationMethods : list string :=
  [ "/calculator.CalculatorService/CalculateDough";
    "/calculator.CalculatorService/CalculateIngredients";
    "/calculator.CalculatorService/OptimizeRecipe" ].

(** [for _, method := range calculationMethods { if fullMethod == method
    { return true } }; return false] *)
Fixpoint isCalculationMethod_range (fullMethod : string) (methods : list string) : bool :=
  match methods with
  | [] => false
  | method :: rest =>
      if String.eqb fullMethod method then true
      else isCalculationMethod_range fullMethod rest
  end.

Definition isCalculationMethod (fullMethod : string) : bool :=
  isCalculationMethod_range fullMethod calculationMethods.

(** The loop of [splitMethod], [for i := len(s) - 1; i >= 0; i--]; the
    counter [k] is [i + 1], so that the loop ends at [k = 0]. *)
Fixpoint splitMethod_loop (s : string) (k : nat) : outcome (list string) :=
  match k with
  | O => Returns [s]
  | S i =>
      c <~ gostr.index s i ;;
      if Ascii.eqb c "/" then
        before <~ gostr.slice s 0 i ;;
        after <~ gostr.slice s (i + 1) (gostr.len s) ;;
        Returns [before; after]
      else splitMethod_loop s i
  end.

Definition splitMethod (s : string) : outcome (list string) :=
  splitMethod_loop s (gostr.len s).

(** The loop of [splitService], [for i := 0; i < len(s); i++]; [todo] is
    [len(s) - i], the number of iterations left.  After the loop comes the
    final [if start < len(s)]. *)
Fixpoint splitService_loop (s : string) (todo i start : nat) (parts : list string)
  : outcome (list string) :=
  match todo with
  | O =>
      if (start <? gostr.len s)%nat then
        last <~ gostr.slice s start (gostr.len s) ;;
        Returns (parts ++ [last])
      else Returns parts
  | S todo' =>
      c <~ gostr.index s i ;;
      if Ascii.eqb c "." then
        parts' <~ (if (start <? i)%nat then
                     part <~ gostr.slice s start i ;;
                     Returns (parts ++ [part])
                   else Returns parts) ;;
        splitService_loop s todo' (i + 1) (i + 1) parts'
      else splitService_loop s todo' (i + 1) start parts
  end.

Definition splitService (s : string) : outcome (list string) :=
  splitService_loop s (gostr.len s) 0 0 [].

Definition extractMethodName (fullMethod : string) : outcome string :=
  leading <~ (if (0 <? gostr.len fullMethod)%nat then
                c <~ gostr.index fullMethod 0 ;; Returns (Ascii.eqb c "/")
              else Returns false) ;;
  if leading : bool then
    rest <~ gostr.slice fullMethod 1 (gostr.len fullMethod) ;;
    parts <~ splitMethod rest ;;
    if (length parts =? 2)%nat then
      service <~ gostr.elem parts 0 ;;
      serviceParts <~ splitService service ;;
      if (2 <=? length serviceParts)%nat then gostr.elem parts 1
      else Returns "unknown"
    else Returns "unknown"
  else Returns "unknown".

Definition getStatusCode (err : error) : string :=
  match err with
  | None => "success"
  | Some _ =>
      let '(st, ok) := status.FromError err in
      if ok then
        match status.Code st with
        | codes.OK => "success"
        | codes.InvalidArgument => "invalid_argument"
        | codes.NotFound => "not_found"
        | codes.Internal => "internal_error"
        | codes.Unavailable => "unavailable"
        | _ => "error"
        end
      else "error"
  end.

Definition getCalculationType (fullMethod : string) : string :=
  if String.eqb fullMethod "/calculator.CalculatorService/CalculateDough"
  then "dough_calculation"
  else if String.eqb fullMethod "/calculator.CalculatorService/CalculateIngredients"
  then "ingredient_calculation"
  else if String.eqb fullMethod "/calculator.CalculatorService/OptimizeRecipe"
  then "recipe_optimization"
  else "unknown_calculation".

Definition getErrorType (err : error) : string :=
  let '(st, ok) := status.FromError err in
  if ok then
    match status.Code st with
    | codes.InvalidArgument => "invalid_input"
    | codes.NotFound => "recipe_not_found"
    | codes.Internal => "calculation_error"
    | codes.Unavailable => "service_unavailable"
    | codes.DeadlineExceeded => "timeout"
    | _ => "unknown_error"
    end
  else "unknown_error".

(** The status codes with a technical label of their own. *)
Definition hasTechnicalLabel (c : codes.Code) : bool :=
  match c with
  | codes.OK | codes.InvalidArgument | codes.NotFound | codes.Internal
  | codes.Unavailable => true
  | _ => false
  end.

(** The placeholder of the source: always zero. *)
Definition getCurrentActiveCalculations : Z := 0%Z.

(** ** Package [metrics]: the domain interface and the recorder *)

Module metrics.

(** The interface [CalculatorMetrics]: each method acts on the state of
    the sink that implements it. *)
Class CalculatorMetrics (M : Type) : Type := {
  IncrementCalculationsTotal : string → M → M;
  RecordCalculationDuration : string → time.Duration → M → M;
  SetActiveCalculations : Z → M → M;
  IncrementCalculationErrors : string → string → M → M;
  RecordDoughAccuracy : float → M → M;
  IncrementIngredientValidations : string → bool → M → M;
  RecordDoughWeight : float → M → M;
  RecordDoughHydration : float → M → M;
  IncrementRecipeTypes : string → M → M
}.

Record CalculationResult : Type := {
  Type_ : string;
  Duration : time.Duration;
  Success : bool;
  ErrorType : string;
  Weight : float;
  Hydration : float;
  Accuracy : float;
  IngredientsUsed : list string
}.

Record MetricsRecorder (M : Type) : Type := { metrics : M }.
Arguments metrics {M} _.

Definition NewMetricsRecorder {M : Type} (m : M) : MetricsRecorder M :=
  {| metrics := m |}.

(** Go's [x > 0] on [float64]. *)
Definition gtZero (x : float) : bool := PrimFloat.ltb 0%float x.

(** [for _, ingredient := range names
      { m.IncrementIngredientValidations(ingredient, true) }] *)
Fixpoint validateIngredients {M : Type} `{CalculatorMetrics M}
    (names : list string) (m : M) : M :=
  match names with
  | [] => m
  | ingredient :: rest =>
      validateIngredients rest (IncrementIngredientValidations ingredient true m)
  end.

Definition RecordCalculation {M Ctx : Type} `{CalculatorMetrics M}
    (r : MetricsRecorder M) (ctx : Ctx) (result : CalculationResult)
  : MetricsRecorder M :=
  let m := metrics r in
  let m := IncrementCalculationsTotal (Type_ result) m in
  let m := RecordCalculationDuration (Type_ result) (Duration result) m in
  if negb (Success result) then
    {| metrics := IncrementCalculationErrors (Type_ result) (ErrorType result) m |}
  else
    let m := if gtZero (Weight result)
             then RecordDoughWeight (Weight result) m else m in
    let m := if gtZero (Hydration result)
             then RecordDoughHydration (Hydration result) m else m in
    let m := if gtZero (Accuracy result)
             then RecordDoughAccuracy (Accuracy result) m else m in
    {| metrics := validateIngredients (IngredientsUsed result) m |}.

End metrics.

Import metrics.

(** ** Sinks *)

(** *** The call log: a sink that remembers which operations were invoked,
    with which arguments, in which order *)

Inductive DomainCall : Type :=
| CallIncrementCalculationsTotal (calculationType : string)
| CallRecordCalculationDuration (calculationType : string) (duration : time.Duration)
| CallSetActiveCalculations (count : Z)
| CallIncrementCalculationErrors (calculationType errorType : string)
| CallRecordDoughAccuracy (accuracy : float)
| CallIncrementIngredientValidations (ingredient : string) (valid : bool)
| CallRecordDoughWeight (weight : float)
| CallRecordDoughHydration (hydration : float)
| CallIncrementRecipeTypes (recipeType : string).

Definition DomainLog : Type := list DomainCall.

#[export] Instance DomainLog_metrics : CalculatorMetrics DomainLog := {|
  IncrementCalculationsTotal t log := log ++ [CallIncrementCalculationsTotal t];
  RecordCalculationDuration t d log := log ++ [CallRecordCalculationDuration t d];
  SetActiveCalculations n log := log ++ [CallSetActiveCalculations n];
  IncrementCalculationErrors t e log := log ++ [CallIncrementCalculationErrors t e];
  RecordDoughAccuracy a log := log ++ [CallRecordDoughAccuracy a];
  IncrementIngredientValidations i v log := log ++ [CallIncrementIngredientValidations i v];
  RecordDoughWeight w log := log ++ [CallRecordDoughWeight w];
  RecordDoughHydration h log := log ++ [CallRecordDoughHydration h];
  IncrementRecipeTypes r log := log ++ [CallIncrementRecipeTypes r]
|}.

(** The two technical operations of [PrometheusMetrics] that the middleware
    uses. *)
Class GRPCMetrics (T : Type) : Type := {
  IncrementGRPCRequests : string → string → T → T;
  RecordGRPCDuration : string → time.Duration → T → T
}.

Inductive GRPCCall : Type :=
| CallIncrementGRPCRequests (method status : string)
| CallRecordGRPCDuration (method : string) (duration : time.Duration).

Definition GRPCLog : Type := list GRPCCall.

#[export] Instance GRPCLog_metrics : GRPCMetrics GRPCLog := {|
  IncrementGRPCRequests method st log := log ++ [CallIncrementGRPCRequests method st];
  RecordGRPCDuration method d log := log ++ [CallRecordGRPCDuration method d]
|}.

(** Classification of the logged calls. *)
Definition isTotalOf (calculationType : string) (c : DomainCall) : bool :=
  match c with
  | CallIncrementCalculationsTotal t => String.eqb t calculationType
  | _ => false
  end.

Definition isDurationOf (calculationType : string) (c : DomainCall) : bool :=
  match c with
  | CallRecordCalculationDuration t _ => String.eqb t calculationType
  | _ => false
  end.

Definition isErrorOf (calculationType errorType : string) (c : DomainCall) : bool :=
  match c with
  | CallIncrementCalculationErrors t e =>
      String.eqb t calculationType && String.eqb e errorType
  | _ => false
  end.

Definition isGauge (c : DomainCall) : bool :=
  match c with
  | CallSetActiveCalculations _ => true
  | _ => false
  end.

(** The weight, hydration, accuracy, ingredient-validation and recipe-type
    operations. *)
Definition isQuality (c : DomainCall) : bool :=
  match c with
  | CallRecordDoughAccuracy _ | CallIncrementIngredientValidations _ _
  | CallRecordDoughWeight _ | CallRecordDoughHydration _
  | CallIncrementRecipeTypes _ => true
  | _ => false
  end.

Definition isWeight (c : DomainCall) : bool :=
  match c with
  | CallRecordDoughWeight _ => true
  | _ => false
  end.

Definition isHydration (c : DomainCall) : bool :=
  match c with
  | CallRecordDoughHydration _ => true
  | _ => false
  end.

Definition isAccuracy (c : DomainCall) : bool :=
  match c with
  | CallRecordDoughAccuracy _ => true
  | _ => false
  end.

Definition isValidationOf (ingredient : string) (valid : bool) (c : DomainCall) : bool :=
  match c with
  | CallIncrementIngredientValidations i v =>
      String.eqb i ingredient && Bool.eqb v valid
  | _ => false
  end.

(** How many calls of a log satisfy [p]. *)
Definition calls (p : DomainCall → bool) (log : DomainLog) : nat :=
  length (List.filter p log).

(** Replaying a log on a sink: the logged operations, in order. *)
Definition perform {M : Type} `{CalculatorMetrics M} (c : DomainCall) (m : M) : M :=
  match c with
  | CallIncrementCalculationsTotal t => IncrementCalculationsTotal t m
  | CallRecordCalculationDuration t d => RecordCalculationDuration t d m
  | CallSetActiveCalculations n => SetActiveCalculations n m
  | CallIncrementCalculationErrors t e => IncrementCalculationErrors t e m
  | CallRecordDoughAccuracy a => RecordDoughAccuracy a m
  | CallIncrementIngredientValidations i v => IncrementIngredientValidations i v m
  | CallRecordDoughWeight w => RecordDoughWeight w m
  | CallRecordDoughHydration h => RecordDoughHydration h m
  | CallIncrementRecipeTypes r => IncrementRecipeTypes r m
  end.

Fixpoint replay {M : Type} `{CalculatorMetrics M} (log : DomainLog) (m : M) : M :=
  match log with
  | [] => m
  | c :: rest => replay rest (perform c m)
  end.

(** *** The mock sink of the repository's tests

    [MockCalculatorMetrics] (named [MockDomainMetrics] in the middleware's
    tests): Go maps are finite maps, a missing key reads as the zero value,
    and [x++] on an [int] wraps. *)

Module mock.

Record MockCalculatorMetrics : Type := {
  calculationsTotal : gmap string Z;
  calculationDurations : gmap string (list time.Duration);
  activeCalculations : Z;
  calculationErrors : gmap string (gmap string Z);
  doughAccuracies : list float;
  ingredientValidations : gmap string (gmap bool Z);
  doughWeights : list float;
  doughHydrations : list float;
  recipeTypes : gmap string Z
}.

Definition NewMockCalculatorMetrics : MockCalculatorMetrics :=
  {| calculationsTotal := ∅;
     calculationDurations := ∅;
     activeCalculations := 0;
     calculationErrors := ∅;
     doughAccuracies := [];
     ingredientValidations := ∅;
     doughWeights := [];
     doughHydrations := [];
     recipeTypes := ∅ |}.

(** [m[k]++] on a [map[K]int]. *)
Definition incr `{Countable K} (k : K) (m : gmap K Z) : gmap K Z :=
  <[k := goint.add (default 0%Z (m !! k)) 1]> m.

(** [if m[k] == nil { m[k] = make(...) }; m[k][j]++] *)
Definition incr2 `{Countable K} `{Countable J} (k : K) (j : J)
    (m : gmap K (gmap J Z)) : gmap K (gmap J Z) :=
  <[k := incr j (default ∅ (m !! k))]> m.

(** [m[k] = append(m[k], x)] *)
Definition push `{Countable K} {A : Type} (k : K) (x : A)
    (m : gmap K (list A)) : gmap K (list A) :=
  <[k := default [] (m !! k) ++ [x]]> m.

Definition mockIncrementCalculationsTotal (calculationType : string)
    (m : MockCalculatorMetrics) : MockCalculatorMetrics :=
  {|
     calculationsTotal := incr calculationType (calculationsTotal m);
     calculationDurations := calculationDurations m;
     activeCalculations := activeCalculations m;
     calculationErrors := calculationErrors m;
     doughAccuracies := doughAccuracies m;
     ingredientValidations := ingredientValidations m;
     doughWeights := doughWeights m;
     doughHydrations := doughHydrations m;
     recipeTypes := recipeTypes m |}.

Definition mockRecordCalculationDuration (calculationType : string)
    (duration : time.Duration) (m : MockCalculatorMetrics) : MockCalculatorMetrics :=
  {|
     calculationsTotal := calculationsTotal m;
     calculationDurations := push calculationType duration (calculationDurations m);
     activeCalculations := activeCalculations m;
     calculationErrors := calculationErrors m;
     doughAccuracies := doughAccuracies m;
     ingredientValidations := ingredientValidations m;
     doughWeights := doughWeights m;
     doughHydrations := doughHydrations m;
     recipeTypes := recipeTypes m |}.

Definition mockSetActiveCalculations (count : Z)
    (m : MockCalculatorMetrics) : MockCalculatorMetrics :=
  {|
     calculationsTotal := calculationsTotal m;
     calculationDurations := calculationDurations m;
     activeCalculations := count;
     calculationErrors := calculationErrors m;
     doughAccuracies := doughAccuracies m;
     ingredientValidations := ingredientValidations m;
     doughWeights := doughWeights m;
     doughHydrations := doughHydrations m;
     recipeTypes := recipeTypes m |}.

Definition mockIncrementCalculationErrors (calculationType errorType : string)
    (m : MockCalculatorMetrics) : MockCalculatorMetrics :=
  {|
     calculationsTotal := calculationsTotal m;
     calculationDurations := calculationDurations m;
     activeCalculations := activeCalculations m;
     calculationErrors := incr2 calculationType errorType (calculationErrors m);
     doughAccuracies := doughAccuracies m;
     ingredientValidations := ingredientValidations m;
     doughWeights := doughWeights m;
     doughHydrations := doughHydrations m;
     recipeTypes := recipeTypes m |}.

Definition mockRecordDoughAccuracy (accuracy : float)
    (m : MockCalculatorMetrics) : MockCalculatorMetrics :=
  {|
     calculationsTotal := calculationsTotal m;
     calculationDurations := calculationDurations m;
     activeCalculations := activeCalculations m;
     calculationErrors := calculationErrors m;
     doughAccuracies := doughAccuracies m ++ [accuracy];
     ingredientValidations := ingredientValidations m;
     doughWeights := doughWeights m;
     doughHydrations := doughHydrations m;
     recipeTypes := recipeTypes m |}.

Definition mockIncrementIngredientValidations (ingredient : string) (valid : bool)
    (m : MockCalculatorMetrics) : MockCalculatorMetrics :=
  {|
     calculationsTotal := calculationsTotal m;
     calculationDurations := calculationDurations m;
     activeCalculations := activeCalculations m;
     calculationErrors := calculationErrors m;
     doughAccuracies := doughAccuracies m;
     ingredientValidations := incr2 ingredient valid (ingredientValidations m);
     doughWeights := doughWeights m;
     doughHydrations := doughHydrations m;
     recipeTypes := recipeTypes m |}.

Definition mockRecordDoughWeight (weight : float)
    (m : MockCalculatorMetrics) : MockCalculatorMetrics :=
  {|
     calculationsTotal := calculationsTotal m;
     calculationDurations := calculationDurations m;
     activeCalculations := activeCalculations m;
     calculationErrors := calculationErrors m;
     doughAccuracies := doughAccuracies m;
     ingredientValidations := ingredientValidations m;
     doughWeights := doughWeights m ++ [weight];
     doughHydrations := doughHydrations m;
     recipeTypes := recipeTypes m |}.

Definition mockRecordDoughHydration (hydration : float)
    (m : MockCalculatorMetrics) : MockCalculatorMetrics :=
  {|
     calculationsTotal := calculationsTotal m;
     calculationDurations := calculationDurations m;
     activeCalculations := activeCalculations m;
     calculationErrors := calculationErrors m;
     doughAccuracies := doughAccuracies m;
     ingredientValidations := ingredientValidations m;
     doughWeights := doughWeights m;
     doughHydrations := doughHydrations m ++ [hydration];
     recipeTypes := recipeTypes m |}.

Definition mockIncrementRecipeTypes (recipeType : string)
    (m : MockCalculatorMetrics) : MockCalculatorMetrics :=
  {|
     calculationsTotal := calculationsTotal m;
     calculationDurations := calculationDurations m;
     activeCalculations := activeCalculations m;
     calculationErrors := calculationErrors m;
     doughAccuracies := doughAccuracies m;
     ingredientValidations := ingredientValidations m;
     doughWeights := doughWeights m;
     doughHydrations := doughHydrations m;
     recipeTypes := incr recipeType (recipeTypes m) |}.

#[global] Instance Mock_metrics : CalculatorMetrics MockCalculatorMetrics := {|
  IncrementCalculationsTotal := mockIncrementCalculationsTotal;
  RecordCalculationDuration := mockRecordCalculationDuration;
  SetActiveCalculations := mockSetActiveCalculations;
  IncrementCalculationErrors := mockIncrementCalculationErrors;
  RecordDoughAccuracy := mockRecordDoughAccuracy;
  IncrementIngredientValidations := mockIncrementIngredientValidations;
  RecordDoughWeight := mockRecordDoughWeight;
  RecordDoughHydration := mockRecordDoughHydration;
  IncrementRecipeTypes := mockIncrementRecipeTypes
|}.

Definition GetCalculationsTotal (m : MockCalculatorMetrics)
    (calculationType : string) : Z :=
  default 0%Z (calculationsTotal m !! calculationType).

Definition GetCalculationDurations (m : MockCalculatorMetrics)
    (calculationType : string) : list time.Duration :=
  default [] (calculationDurations m !! calculationType).

Definition GetCalculationErrors (m : MockCalculatorMetrics)
    (calculationType errorType : string) : Z :=
  match calculationErrors m !! calculationType with
  | None => 0%Z
  | Some byType => default 0%Z (byType !! errorType)
  end.

End mock.

(** ** Package [middleware]: the interceptor *)

(** [BusinessMetrics]: what the middleware would extract from a response.
    The record has a module of its own, so that its fields keep the names
    they have in the source. *)
Module business.

Record BusinessMetrics : Type := {
  Weight : float;
  Hydration : float;
  Accuracy : float;
  Ingredients : list string;
  RecipeType : string
}.

End business.

Abbreviation BusinessMetrics := business.BusinessMetrics.

(** The middleware holds its two sinks (both non-nil); they are reached
    through pointers, so every method call updates the sink held here.  The
    domain operations and the technical operations act on different series,
    so the model keeps the two sinks apart even where one Prometheus
    registry serves as both. *)
Record MetricsMiddleware (D T : Type) : Type := {
  domainMetrics : D;
  prometheusMetrics : T
}.
Arguments domainMetrics {D T} _.
Arguments prometheusMetrics {D T} _.

Definition NewMetricsMiddleware {D T : Type} (d : D) (t : T) : MetricsMiddleware D T :=
  {| domainMetrics := d; prometheusMetrics := t |}.

(** [m.domainMetrics.f(...)] and [m.prometheusMetrics.f(...)] *)
Definition onDomain {D T : Type} (f : D → D) (m : MetricsMiddleware D T)
  : MetricsMiddleware D T :=
  {| domainMetrics := f (domainMetrics m); prometheusMetrics := prometheusMetrics m |}.

Definition onPrometheus {D T : Type} (f : T → T) (m : MetricsMiddleware D T)
  : MetricsMiddleware D T :=
  {| domainMetrics := domainMetrics m; prometheusMetrics := f (prometheusMetrics m) |}.

(** [grpc.UnaryServerInfo], of which only [FullMethod] is read. *)
Record UnaryServerInfo : Type := { FullMethod : string }.

(** [grpc.UnaryHandler]: the wrapped business logic.  It runs in the world
    [W] (which carries the clock), returns a response and an error, and has
    no access to the sinks of the middleware.  A handler that panics is
    outside the model. *)
Definition UnaryHandler (Ctx Req Resp W : Type) : Type :=
  Ctx → Req → W → (Resp * error) * W.

Section Middleware.

Context {D T : Type} `{CalculatorMetrics D} `{GRPCMetrics T}.
Context {Ctx Req Resp W : Type} `{time.Clock W}.

(** The stub of the source: no response yields business metrics. *)
Definition extractBusinessMetrics (resp : Resp) : option BusinessMetrics := None.

Definition recordBusinessMetrics (business : BusinessMetrics) (metrics : D) : D :=
  let metrics := if gtZero (business.Weight business)
                 then RecordDoughWeight (business.Weight business) metrics else metrics in
  let metrics := if gtZero (business.Hydration business)
                 then RecordDoughHydration (business.Hydration business) metrics else metrics in
  let metrics := if gtZero (business.Accuracy business)
                 then RecordDoughAccuracy (business.Accuracy business) metrics else metrics in
  let metrics := if negb (String.eqb (business.RecipeType business) "")
                 then IncrementRecipeTypes (business.RecipeType business) metrics else metrics in
  validateIngredients (business.Ingredients business) metrics.

(** The function that [UnaryServerInterceptor] returns, applied to one
    call: the result is the pair returned to gRPC, the middleware's sinks
    and the world after the call. *)
Definition UnaryServerInterceptor (m : MetricsMiddleware D T)
    (ctx : Ctx) (req : Req) (info : UnaryServerInfo)
    (handler : UnaryHandler Ctx Req Resp W) (w : W)
  : outcome ((Resp * error) * MetricsMiddleware D T * W) :=
  let start := time.Now w in
  let m := if isCalculationMethod (FullMethod info)
           then onDomain
                  (SetActiveCalculations (goint.add getCurrentActiveCalculations 1)) m
           else m in
  let '((resp, err), w) := handler ctx req w in
  let duration := time.Since start w in
  let statusCode := getStatusCode err in
  name <~ extractMethodName (FullMethod info) ;;
  let m := onPrometheus (IncrementGRPCRequests name statusCode) m in
  name <~ extractMethodName (FullMethod info) ;;
  let m := onPrometheus (RecordGRPCDuration name duration) m in
  let m :=
    if isCalculationMethod (FullMethod info) then
      let m := onDomain
                 (SetActiveCalculations (goint.sub getCurrentActiveCalculations 1)) m in
      let calculationType := getCalculationType (FullMethod info) in
      match err with
      | Some _ =>
          let errorType := getErrorType err in
          onDomain (IncrementCalculationErrors calculationType errorType) m
      | None =>
          let m := onDomain (IncrementCalculationsTotal calculationType) m in
          let m := onDomain (RecordCalculationDuration calculationType duration) m in
          match extractBusinessMetrics resp with
          | Some businessMetrics => onDomain (recordBusinessMetrics businessMetrics) m
          | None => m
          end
      end
    else m in
  Returns ((resp, err), m, w).

End Middleware.

(** ** A concrete world for the examples *)

(** The clock is a counter of nanoseconds; [Since] is the number of
    nanoseconds elapsed. *)
#[export] Instance Z_clock : time.Clock Z := {|
  time.Time := Z;
  time.Now w := w;
  time.Since start w := (w - start)%Z
|}.

(** The handlers of the middleware's tests: one succeeds after ten
    milliseconds, one fails at once with [InvalidArgument]. *)
Definition succeedingHandler : UnaryHandler unit string (option string) Z :=
  λ _ _ w, ((Some "success response", None), (w + 10000000)%Z).

Definition failingHandler : UnaryHandler unit string (option string) Z :=
  λ _ _ w, ((None, Some (StatusError codes.InvalidArgument "invalid input")), w).

Definition doughInfo : UnaryServerInfo :=
  {| FullMethod := "/calculator.CalculatorService/CalculateDough" |}.

Definition healthInfo : UnaryServerInfo :=
  {| FullMethod := "/calculator.CalculatorService/GetHealth" |}.

(** ** The results of the recorder's tests *)

(** [TestMetricsRecorder_RecordCalculation_PartialData]: only the hydration
    is provided. *)
Definition partialData : CalculationResult :=
  {| Type_ := "quick_calculation";
     Duration := 25000000%Z;
     Success := true;
     ErrorType := "";
     Weight := 0%float;
     Hydration := 65.0%float;
     Accuracy := 0%float;
     IngredientsUsed := ["flour"] |}.

(** A failed calculation whose quality fields are nevertheless filled in. *)
Definition failedWithValues : CalculationResult :=
  {| Type_ := "dough_calculation";
     Duration := 50000000%Z;
     Success := false;
     ErrorType := "invalid_ingredients";
     Weight := 500.0%float;
     Hydration := 70.0%float;
     Accuracy := 95.5%float;
     IngredientsUsed := ["flour"; "water"; "salt"] |}.

(** [TestMetricsRecorder_MultipleCalculations_AggregatesCorrectly] *)
Definition threeCalculations : list CalculationResult :=
  [ {| Type_ := "dough_calculation"; Duration := 100000000%Z; Success := true;
       ErrorType := ""; Weight := 500.0%float; Hydration := 0%float;
       Accuracy := 0%float; IngredientsUsed := [] |};
    {| Type_ := "dough_calculation"; Duration := 150000000%Z; Success := true;
       ErrorType := ""; Weight := 750.0%float; Hydration := 0%float;
       Accuracy := 0%float; IngredientsUsed := [] |};
    {| Type_ := "dough_calculation"; Duration := 80000000%Z; Success := false;
       ErrorType := "invalid_input"; Weight := 0%float; Hydration := 0%float;
       Accuracy := 0%float; IngredientsUsed := [] |} ].

(** ** The address format, stated on the string itself

    The conventional address is ["/<package>.<Service>/<MethodName>"].  The
    definitions below say what the parts of an address are without any index
    arithmetic; the loops of [splitMethod] and [splitService] are compared
    with them. *)

Module address.

(** Whether the byte [c] occurs in [s]. *)
Fixpoint hasByte (c : ascii) (s : string) : bool :=
  match s with
  | EmptyString => false
  | String x rest => Ascii.eqb x c || hasByte c rest
  end.

(** [prepend cur fs] puts [cur] in front of the first field of [fs]. *)
Definition prepend (cur : string) (fs : list string) : list string :=
  match fs with
  | [] => [cur]
  | f :: rest => (cur +:+ f) :: rest
  end.

(** The fields of [s] between its dots, empty ones included. *)
Fixpoint fields (s : string) : list string :=
  match s with
  | EmptyString => [""]
  | String c rest =>
      if Ascii.eqb c "." then "" :: fields rest
      else prepend (String c "") (fields rest)
  end.

(** The dot-separated segments of a service path: its non-empty fields. *)
Definition segments (s : string) : list string :=
  filter (λ f, f ≠ "") (fields s).

(** The malformed addresses: the empty string; a string without a leading
    slash; a string with nothing to split after the leading slash; a
    string whose service path has fewer than two segments. *)
Inductive Malformed : string → Prop :=
| EmptyAddress : Malformed ""
| NoLeadingSlash (c : ascii) (s : string) :
    c ≠ "/"%char → Malformed (String c s)
| NoMethodPart (s : string) :
    hasByte "/" s = false → Malformed ("/" +:+ s)
| ShortServicePath (service method : string) :
    hasByte "/" method = false →
    (length (segments service) < 2)%nat →
    Malformed ("/" +:+ service +:+ "/" +:+ method).

End address.

(** ** The calls that one run sends to the domain sink *)

(** What [RecordCalculation] sends to its sink, for each of the two kinds
    of result. *)
Definition recordedOnFailure (result : CalculationResult) : DomainLog :=
  [ CallIncrementCalculationsTotal (Type_ result);
    CallRecordCalculationDuration (Type_ result) (Duration result);
    CallIncrementCalculationErrors (Type_ result) (ErrorType result) ].

Definition recordedOnSuccess (result : CalculationResult) : DomainLog :=
  [ CallIncrementCalculationsTotal (Type_ result);
    CallRecordCalculationDuration (Type_ result) (Duration result) ]
  ++ (if gtZero (Weight result) then [CallRecordDoughWeight (Weight result)] else [])
  ++ (if gtZero (Hydration result)
      then [CallRecordDoughHydration (Hydration result)] else [])
  ++ (if gtZero (Accuracy result)
      then [CallRecordDoughAccuracy (Accuracy result)] else [])
  ++ map (λ i, CallIncrementIngredientValidations i true) (IngredientsUsed result).

(** What [RecordCalculation] sends to its sink for [result]. *)
Definition recordedOf (result : CalculationResult) : DomainLog :=
  if Success result then recordedOnSuccess result else recordedOnFailure result.

(** What the unary interceptor sends to its domain sink during one call
    whose handler returned [err] after [duration]. *)
Definition domainCallsOf (fullMethod : string) (err : error)
    (duration : time.Duration) : DomainLog :=
  if isCalculationMethod fullMethod then
    [ CallSetActiveCalculations 1; CallSetActiveCalculations (-1) ] ++
    match err with
    | Some _ =>
        [ CallIncrementCalculationErrors (getCalculationType fullMethod)
            (getErrorType err) ]
    | None =>
        [ CallIncrementCalculationsTotal (getCalculationType fullMethod);
          CallRecordCalculationDuration (getCalculationType fullMethod) duration ]
    end
  else [].

(** The middleware of the tests: a fresh mock as domain sink and a call log
    as technical sink. *)
Definition testMiddleware : MetricsMiddleware mock.MockCalculatorMetrics GRPCLog :=
  NewMetricsMiddleware mock.NewMockCalculatorMetrics [].

(** The same with a call log as domain sink. *)
Definition loggingMiddleware : MetricsMiddleware DomainLog GRPCLog :=
  NewMetricsMiddleware [] [].

(** ** Package [middleware]: the stream interceptor *)

Module stream.

(** [grpc.StreamServerInfo], of which only [FullMethod] is read. *)
Record StreamServerInfo : Type := { FullMethod : string }.

End stream.

(** [grpc.StreamHandler]: it runs in the world [W] for the whole life of
    the stream and returns an error. *)
Definition StreamHandler (Srv Stream W : Type) : Type :=
  Srv → Stream → W → error * W.

Section StreamMiddleware.

Context {D T : Type} `{GRPCMetrics T}.
Context {Srv Stream W : Type} `{time.Clock W}.

(** The function that [StreamServerInterceptor] returns, applied to one
    stream. *)
Definition StreamServerInterceptor (m : MetricsMiddleware D T)
    (srv : Srv) (stream : Stream) (info : stream.StreamServerInfo)
    (handler : StreamHandler Srv Stream W) (w : W)
  : outcome (error * MetricsMiddleware D T * W) :=
  let start := time.Now w in
  let '(err, w) := handler srv stream w in
  let duration := time.Since start w in
  let statusCode := getStatusCode err in
  name <~ extractMethodName (stream.FullMethod info) ;;
  let m := onPrometheus (IncrementGRPCRequests name statusCode) m in
  name <~ extractMethodName (stream.FullMethod info) ;;
  let m := onPrometheus (RecordGRPCDuration name duration) m in
  Returns (err, m, w).

End StreamMiddleware.

(** ** The loop of the recorder's tests *)

(** [for _, result := range results
      { recorder.RecordCalculation(context.Background(), result) }] *)
Fixpoint recordAll {M Ctx : Type} `{CalculatorMetrics M}
    (recorder : MetricsRecorder M) (ctx : Ctx) (results : list CalculationResult)
  : MetricsRecorder M :=
  match results with
  | [] => recorder
  | result :: rest => recordAll (RecordCalculation recorder ctx result) ctx rest
  end.

(** ** Reading a call log *)

Definition isRecipeType (c : DomainCall) : bool :=
  match c with
  | CallIncrementRecipeTypes _ => true
  | _ => false
  end.

(** The weights a log records, in order. *)
Fixpoint recordedWeights (log : DomainLog) : list float :=
  match log with
  | [] => []
  | CallRecordDoughWeight w :: rest => w :: recordedWeights rest
  | _ :: rest => recordedWeights rest
  end.

(** The calculation type a call is recorded under, for the calls that have
    one. *)
Definition typeOf (c : DomainCall) : option string :=
  match c with
  | CallIncrementCalculationsTotal t
  | CallRecordCalculationDuration t _
  | CallIncrementCalculationErrors t _ => Some t
  | _ => None
  end.

(** What [recordBusinessMetrics] sends to its sink. *)
Definition recordedBusiness (b : BusinessMetrics) : DomainLog :=
  (if gtZero (business.Weight b) then [CallRecordDoughWeight (business.Weight b)] else [])
  ++ (if gtZero (business.Hydration b)
      then [CallRecordDoughHydration (business.Hydration b)] else [])
  ++ (if gtZero (business.Accuracy b)
      then [CallRecordDoughAccuracy (business.Accuracy b)] else [])
  ++ (if String.eqb (business.RecipeType b) "" then []
      else [CallIncrementRecipeTypes (business.RecipeType b)])
  ++ map (λ i, CallIncrementIngredientValidations i true) (business.Ingredients b).

(** ** Reading a string *)



(** ** Package [application]: the dough calculator service

    The packages [strategies] and [domain] are not part of the sources at
    hand: the pan type, its three fields that the service reads, the
    strategy lookup and the calculation of a strategy are parameters. *)

Module application.

(** [item.Shape], [item.Measures] and [pan.Area] of a [domain.Pan];
    [strategies.GetStrategy] and [strategy.Calculate], each of which
    returns a value and an error. *)
Class Strategies (Pan : Type) : Type := {
  Measures : Type;
  Strategy : Type;
  Shape : Pan → string;
  Measures_ : Pan → Measures;
  Area : Pan → float;
  GetStrategy : string → Strategy * error;
  Calculate : Strategy → Measures → Pan * error
}.

(** [domain.Pans], as far as the service uses it. *)
Record Pans (Pan : Type) : Type := { Pans_ : list Pan; TotalArea : float }.
Arguments Pans_ {Pan} _.
Arguments TotalArea {Pan} _.

(** The loop [for _, item := range body.Pans]; [result] is the value
    accumulated so far.  The pair returned is the pointer (nil or not) and
    the error of [TotalDoughWeightByPans]. *)
Fixpoint TotalDoughWeightByPans_range {Pan : Type} `{Strategies Pan}
    (items : list Pan) (result : Pans Pan) : option (Pans Pan) * error :=
  match items with
  | [] => (Some result, None)
  | item :: rest =>
      let '(strategy, err) := GetStrategy (Shape item) in
      match err with
      | Some _ => (None, Some (PlainError "unsupported shape"))
      | None =>
          let '(pan, err) := Calculate strategy (Measures_ item) in
          match err with
          | Some _ => (None, Some (PlainError "error processing pan"))
          | None =>
              TotalDoughWeightByPans_range rest
                {| Pans_ := Pans_ result ++ [pan];
                   TotalArea := PrimFloat.add (TotalArea result) (Area pan) |}
          end
      end
  end.

Definition TotalDoughWeightByPans {Pan Ctx : Type} `{Strategies Pan}
    (ctx : Ctx) (body : Pans Pan) : option (Pans Pan) * error :=
  TotalDoughWeightByPans_range (Pans_ body) {| Pans_ := []; TotalArea := 0%float |}.

(** The pan that the service computes for [item], and whether each of the
    two steps succeeds for it. *)
Definition computed {Pan : Type} `{Strategies Pan} (item : Pan) : Pan :=
  fst (Calculate (fst (GetStrategy (Shape item))) (Measures_ item)).

Definition supported {Pan : Type} `{Strategies Pan} (item : Pan) : bool :=
  match snd (GetStrategy (Shape item)) with
  | Some _ => false
  | None => true
  end.

Definition calculable {Pan : Type} `{Strategies Pan} (item : Pan) : bool :=
  match snd (Calculate (fst (GetStrategy (Shape item))) (Measures_ item)) with
  | Some _ => false
  | None => true
  end.

(** [0 + a1 + a2 + ...], added from the left as the loop does. *)
Definition totalArea {Pan : Type} `{Strategies Pan} (pans : list Pan) : float :=
  fold_left (λ acc pan, PrimFloat.add acc (Area pan)) pans 0%float.

End application.

(** ** The Prometheus client, as far as [PrometheusMetrics] uses it

    The client library is not part of the sources.  A collector is kept as
    its options, its variable label names and, for each series (one per
    tuple of label values), the operations applied to it so far.  Two of
    the library's rules are modelled: a collector is registered under its
    name with the default registry, and registering a name twice panics;
    [WithLabelValues] panics unless it is given as many values as the
    collector has variable labels. *)

(** Decimal bucket bounds are rounded to the nearest [float64], as Go rounds
    them. *)
Set Warnings "-inexact-float".

Module prometheus.

(** What is observed or set: a [float64], the seconds of a duration
    ([duration.Seconds()]), or an [int] converted ([float64(count)]). *)
Inductive Sample : Type :=
| Value (v : float)
| Seconds (d : time.Duration)
| Count (n : Z).

Inductive Op : Type :=
| Inc
| Observe (s : Sample)
| SetTo (s : Sample).

Record Collector : Type := {
  Name : string;
  Help : string;
  Buckets : list float;
  variableLabels : list string;
  series : gmap (list string) (list Op)
}.

(** The default registry: the names registered so far. *)
Definition Registry : Type := gset string.

(** [prometheus.DefBuckets] *)
Definition DefBuckets : list float :=
  [0.005; 0.01; 0.025; 0.05; 0.1; 0.25; 0.5; 1; 2.5; 5; 10]%float.

(** [promauto.NewCounterVec], [NewHistogramVec], [NewGauge], [NewCounter]
    and [NewHistogram]: the collector is built and registered; a name that
    is registered already makes the registration panic. *)
Definition New (name help : string) (buckets : list float) (labels : list string)
    (r : Registry) : outcome (Collector * Registry) :=
  if decide (name ∈ r)
  then Panics "duplicate metrics collector registration attempted"
  else Returns ({| Name := name; Help := help; Buckets := buckets;
                   variableLabels := labels; series := ∅ |},
                {[ name ]} ∪ r).

(** One operation on the series of [c] with label values [lvs]. *)
Definition apply (c : Collector) (lvs : list string) (o : Op) : Collector :=
  {| Name := Name c; Help := Help c; Buckets := Buckets c;
     variableLabels := variableLabels c;
     series := <[lvs := default [] (series c !! lvs) ++ [o]]> (series c) |}.

(** [c.WithLabelValues(lvs...)] followed by the operation [o]. *)
Definition WithLabelValues (c : Collector) (lvs : list string) (o : Op)
  : outcome Collector :=
  if (length lvs =? length (variableLabels c))%nat
  then Returns (apply c lvs o)
  else Panics "inconsistent label cardinality".

(** The operations recorded for one series. *)
Definition history (c : Collector) (lvs : list string) : list Op :=
  default [] (series c !! lvs).

End prometheus.

(** ** Package [metrics] of the infrastructure: [PrometheusMetrics] *)

Module infraMetrics.

Record PrometheusMetrics : Type := {
  calculationsTotal : prometheus.Collector;
  calculationDuration : prometheus.Collector;
  activeCalculations : prometheus.Collector;
  calculationErrors : prometheus.Collector;
  doughAccuracy : prometheus.Collector;
  ingredientValidations : prometheus.Collector;
  doughWeight : prometheus.Collector;
  doughHydration : prometheus.Collector;
  recipeTypes : prometheus.Collector;
  grpcRequestsTotal : prometheus.Collector;
  grpcRequestDuration : prometheus.Collector
}.

(** The collectors are built and registered in the order of the struct
    literal. *)
Definition NewPrometheusMetrics (r : prometheus.Registry)
  : outcome (PrometheusMetrics * prometheus.Registry) :=
  c1 <~ prometheus.New "calculator_calculations_total"
          "Total number of calculations performed" [] ["type"] r ;;
  c2 <~ prometheus.New "calculator_calculation_duration_seconds"
          "Duration of calculations in seconds"
          [0.001; 0.005; 0.01; 0.025; 0.05; 0.1; 0.25; 0.5; 1.0; 2.5; 5.0]%float
          ["type"] (snd c1) ;;
  c3 <~ prometheus.New "calculator_active_calculations"
          "Number of calculations currently in progress" [] [] (snd c2) ;;
  c4 <~ prometheus.New "calculator_calculation_errors_total"
          "Total number of calculation errors" [] ["type"; "error_type"] (snd c3) ;;
  c5 <~ prometheus.New "calculator_dough_accuracy_percentage"
          "Accuracy of dough calculations as percentage"
          [70; 75; 80; 85; 90; 95; 97; 99; 99.5; 100]%float [] (snd c4) ;;
  c6 <~ prometheus.New "calculator_ingredient_validations_total"
          "Total number of ingredient validations" [] ["ingredient"; "valid"]
          (snd c5) ;;
  c7 <~ prometheus.New "calculator_dough_weight_grams"
          "Weight of calculated dough in grams"
          [100; 250; 500; 750; 1000; 1500; 2000; 3000; 5000; 10000]%float []
          (snd c6) ;;
  c8 <~ prometheus.New "calculator_dough_hydration_percentage"
          "Hydration percentage of calculated dough"
          [50; 55; 60; 65; 70; 75; 80; 85; 90; 95; 100]%float [] (snd c7) ;;
  c9 <~ prometheus.New "calculator_recipe_types_total"
          "Total number of calculations by recipe type" [] ["recipe_type"]
          (snd c8) ;;
  c10 <~ prometheus.New "calculator_grpc_requests_total"
           "Total number of gRPC requests" [] ["method"; "status"] (snd c9) ;;
  c11 <~ prometheus.New "calculator_grpc_request_duration_seconds"
           "Duration of gRPC requests in seconds" prometheus.DefBuckets ["method"]
           (snd c10) ;;
  Returns
    ({| calculationsTotal := fst c1;
        calculationDuration := fst c2;
        activeCalculations := fst c3;
        calculationErrors := fst c4;
        doughAccuracy := fst c5;
        ingredientValidations := fst c6;
        doughWeight := fst c7;
        doughHydration := fst c8;
        recipeTypes := fst c9;
        grpcRequestsTotal := fst c10;
        grpcRequestDuration := fst c11 |},
     snd c11).

(** Assignment to one field of the struct. *)
Definition withCalculationsTotal (c : prometheus.Collector) (m : PrometheusMetrics)
  : PrometheusMetrics :=
  {|
     calculationsTotal := c;
     calculationDuration := calculationDuration m;
     activeCalculations := activeCalculations m;
     calculationErrors := calculationErrors m;
     doughAccuracy := doughAccuracy m;
     ingredientValidations := ingredientValidations m;
     doughWeight := doughWeight m;
     doughHydration := doughHydration m;
     recipeTypes := recipeTypes m;
     grpcRequestsTotal := grpcRequestsTotal m;
     grpcRequestDuration := grpcRequestDuration m |}.

Definition withCalculationDuration (c : prometheus.Collector) (m : PrometheusMetrics)
  : PrometheusMetrics :=
  {|
     calculationsTotal := calculationsTotal m;
     calculationDuration := c;
     activeCalculations := activeCalculations m;
     calculationErrors := calculationErrors m;
     doughAccuracy := doughAccuracy m;
     ingredientValidations := ingredientValidations m;
     doughWeight := doughWeight m;
     doughHydration := doughHydration m;
     recipeTypes := recipeTypes m;
     grpcRequestsTotal := grpcRequestsTotal m;
     grpcRequestDuration := grpcRequestDuration m |}.

Definition withActiveCalculations (c : prometheus.Collector) (m : PrometheusMetrics)
  : PrometheusMetrics :=
  {|
     calculationsTotal := calculationsTotal m;
     calculationDuration := calculationDuration m;
     activeCalculations := c;
     calculationErrors := calculationErrors m;
     doughAccuracy := doughAccuracy m;
     ingredientValidations := ingredientValidations m;
     doughWeight := doughWeight m;
     doughHydration := doughHydration m;
     recipeTypes := recipeTypes m;
     grpcRequestsTotal := grpcRequestsTotal m;
     grpcRequestDuration := grpcRequestDuration m |}.

Definition withCalculationErrors (c : prometheus.Collector) (m : PrometheusMetrics)
  : PrometheusMetrics :=
  {|
     calculationsTotal := calculationsTotal m;
     calculationDuration := calculationDuration m;
     activeCalculations := activeCalculations m;
     calculationErrors := c;
     doughAccuracy := doughAccuracy m;
     ingredientValidations := ingredientValidations m;
     doughWeight := doughWeight m;
     doughHydration := doughHydration m;
     recipeTypes := recipeTypes m;
     grpcRequestsTotal := grpcRequestsTotal m;
     grpcRequestDuration := grpcRequestDuration m |}.

Definition withDoughAccuracy (c : prometheus.Collector) (m : PrometheusMetrics)
  : PrometheusMetrics :=
  {|
     calculationsTotal := calculationsTotal m;
     calculationDuration := calculationDuration m;
     activeCalculations := activeCalculations m;
     calculationErrors := calculationErrors m;
     doughAccuracy := c;
     ingredientValidations := ingredientValidations m;
     doughWeight := doughWeight m;
     doughHydration := doughHydration m;
     recipeTypes := recipeTypes m;
     grpcRequestsTotal := grpcRequestsTotal m;
     grpcRequestDuration := grpcRequestDuration m |}.

Definition withIngredientValidations (c : prometheus.Collector) (m : PrometheusMetrics)
  : PrometheusMetrics :=
  {|
     calculationsTotal := calculationsTotal m;
     calculationDuration := calculationDuration m;
     activeCalculations := activeCalculations m;
     calculationErrors := calculationErrors m;
     doughAccuracy := doughAccuracy m;
     ingredientValidations := c;
     doughWeight := doughWeight m;
     doughHydration := doughHydration m;
     recipeTypes := recipeTypes m;
     grpcRequestsTotal := grpcRequestsTotal m;
     grpcRequestDuration := grpcRequestDuration m |}.

Definition withDoughWeight (c : prometheus.Collector) (m : PrometheusMetrics)
  : PrometheusMetrics :=
  {|
     calculationsTotal := calculationsTotal m;
     calculationDuration := calculationDuration m;
     activeCalculations := activeCalculations m;
     calculationErrors := calculationErrors m;
     doughAccuracy := doughAccuracy m;
     ingredientValidations := ingredientValidations m;
     doughWeight := c;
     doughHydration := doughHydration m;
     recipeTypes := recipeTypes m;
     grpcRequestsTotal := grpcRequestsTotal m;
     grpcRequestDuration := grpcRequestDuration m |}.

Definition withDoughHydration (c : prometheus.Collector) (m : PrometheusMetrics)
  : PrometheusMetrics :=
  {|
     calculationsTotal := calculationsTotal m;
     calculationDuration := calculationDuration m;
     activeCalculations := activeCalculations m;
     calculationErrors := calculationErrors m;
     doughAccuracy := doughAccuracy m;
     ingredientValidations := ingredientValidations m;
     doughWeight := doughWeight m;
     doughHydration := c;
     recipeTypes := recipeTypes m;
     grpcRequestsTotal := grpcRequestsTotal m;
     grpcRequestDuration := grpcRequestDuration m |}.

Definition withRecipeTypes (c : prometheus.Collector) (m : PrometheusMetrics)
  : PrometheusMetrics :=
  {|
     calculationsTotal := calculationsTotal m;
     calculationDuration := calculationDuration m;
     activeCalculations := activeCalculations m;
     calculationErrors := calculationErrors m;
     doughAccuracy := doughAccuracy m;
     ingredientValidations := ingredientValidations m;
     doughWeight := doughWeight m;
     doughHydration := doughHydration m;
     recipeTypes := c;
     grpcRequestsTotal := grpcRequestsTotal m;
     grpcRequestDuration := grpcRequestDuration m |}.

Definition withGrpcRequestsTotal (c : prometheus.Collector) (m : PrometheusMetrics)
  : PrometheusMetrics :=
  {|
     calculationsTotal := calculationsTotal m;
     calculationDuration := calculationDuration m;
     activeCalculations := activeCalculations m;
     calculationErrors := calculationErrors m;
     doughAccuracy := doughAccuracy m;
     ingredientValidations := ingredientValidations m;
     doughWeight := doughWeight m;
     doughHydration := doughHydration m;
     recipeTypes := recipeTypes m;
     grpcRequestsTotal := c;
     grpcRequestDuration := grpcRequestDuration m |}.

Definition withGrpcRequestDuration (c : prometheus.Collector) (m : PrometheusMetrics)
  : PrometheusMetrics :=
  {|
     calculationsTotal := calculationsTotal m;
     calculationDuration := calculationDuration m;
     activeCalculations := activeCalculations m;
     calculationErrors := calculationErrors m;
     doughAccuracy := doughAccuracy m;
     ingredientValidations := ingredientValidations m;
     doughWeight := doughWeight m;
     doughHydration := doughHydration m;
     recipeTypes := recipeTypes m;
     grpcRequestsTotal := grpcRequestsTotal m;
     grpcRequestDuration := c |}.

Definition IncrementCalculationsTotal (calculationType : string)
    (m : PrometheusMetrics) : outcome PrometheusMetrics :=
  c <~ prometheus.WithLabelValues (calculationsTotal m) [calculationType]
         prometheus.Inc ;;
  Returns (withCalculationsTotal c m).

Definition RecordCalculationDuration (calculationType : string)
    (duration : time.Duration) (m : PrometheusMetrics) : outcome PrometheusMetrics :=
  c <~ prometheus.WithLabelValues (calculationDuration m) [calculationType]
         (prometheus.Observe (prometheus.Seconds duration)) ;;
  Returns (withCalculationDuration c m).

Definition SetActiveCalculations (count : Z) (m : PrometheusMetrics)
  : outcome PrometheusMetrics :=
  Returns (withActiveCalculations
             (prometheus.apply (activeCalculations m) []
                (prometheus.SetTo (prometheus.Count count))) m).

Definition IncrementCalculationErrors (calculationType errorType : string)
    (m : PrometheusMetrics) : outcome PrometheusMetrics :=
  c <~ prometheus.WithLabelValues (calculationErrors m) [calculationType; errorType]
         prometheus.Inc ;;
  Returns (withCalculationErrors c m).

Definition RecordDoughAccuracy (accuracy : float) (m : PrometheusMetrics)
  : outcome PrometheusMetrics :=
  Returns (withDoughAccuracy
             (prometheus.apply (doughAccuracy m) []
                (prometheus.Observe (prometheus.Value accuracy))) m).

Definition IncrementIngredientValidations (ingredient : string) (valid : bool)
    (m : PrometheusMetrics) : outcome PrometheusMetrics :=
  let validStr := if valid then "true" else "false" in
  c <~ prometheus.WithLabelValues (ingredientValidations m) [ingredient; validStr]
         prometheus.Inc ;;
  Returns (withIngredientValidations c m).

Definition RecordDoughWeight (weight : float) (m : PrometheusMetrics)
  : outcome PrometheusMetrics :=
  Returns (withDoughWeight
             (prometheus.apply (doughWeight m) []
                (prometheus.Observe (prometheus.Value weight))) m).

Definition RecordDoughHydration (hydration : float) (m : PrometheusMetrics)
  : outcome PrometheusMetrics :=
  Returns (withDoughHydration
             (prometheus.apply (doughHydration m) []
                (prometheus.Observe (prometheus.Value hydration))) m).

Definition IncrementRecipeTypes (recipeType : string) (m : PrometheusMetrics)
  : outcome PrometheusMetrics :=
  c <~ prometheus.WithLabelValues (recipeTypes m) [recipeType] prometheus.Inc ;;
  Returns (withRecipeTypes c m).

Definition IncrementGRPCRequests (method status : string) (m : PrometheusMetrics)
  : outcome PrometheusMetrics :=
  c <~ prometheus.WithLabelValues (grpcRequestsTotal m) [method; status]
         prometheus.Inc ;;
  Returns (withGrpcRequestsTotal c m).

Definition RecordGRPCDuration (method : string) (duration : time.Duration)
    (m : PrometheusMetrics) : outcome PrometheusMetrics :=
  c <~ prometheus.WithLabelValues (grpcRequestDuration m) [method]
         (prometheus.Observe (prometheus.Seconds duration)) ;;
  Returns (withGrpcRequestDuration c m).

(** One call of a method of [PrometheusMetrics], of either interface. *)
Inductive MethodCall : Type :=
| Domain (c : DomainCall)
| Technical (c : GRPCCall).

Definition invoke (c : MethodCall) (m : PrometheusMetrics) : outcome PrometheusMetrics :=
  match c with
  | Domain (CallIncrementCalculationsTotal t) => IncrementCalculationsTotal t m
  | Domain (CallRecordCalculationDuration t d) => RecordCalculationDuration t d m
  | Domain (CallSetActiveCalculations n) => SetActiveCalculations n m
  | Domain (CallIncrementCalculationErrors t e) => IncrementCalculationErrors t e m
  | Domain (CallRecordDoughAccuracy a) => RecordDoughAccuracy a m
  | Domain (CallIncrementIngredientValidations i v) =>
      IncrementIngredientValidations i v m
  | Domain (CallRecordDoughWeight w) => RecordDoughWeight w m
  | Domain (CallRecordDoughHydration h) => RecordDoughHydration h m
  | Domain (CallIncrementRecipeTypes r) => IncrementRecipeTypes r m
  | Technical (CallIncrementGRPCRequests method st) => IncrementGRPCRequests method st m
  | Technical (CallRecordGRPCDuration method d) => RecordGRPCDuration method d m
  end.

(** A sequence of method calls, one after the other. *)
Fixpoint invokeAll (cs : list MethodCall) (m : PrometheusMetrics)
  : outcome PrometheusMetrics :=
  match cs with
  | [] => Returns m
  | c :: rest => m' <~ invoke c m ;; invokeAll rest m'
  end.

(** The variable label names of the eleven collectors, in the order of the
    struct's fields. *)
Definition labelNames (m : PrometheusMetrics) : list (list string) :=
  map prometheus.variableLabels
    [ calculationsTotal m; calculationDuration m; activeCalculations m;
      calculationErrors m; doughAccuracy m; ingredientValidations m;
      doughWeight m; doughHydration m; recipeTypes m;
      grpcRequestsTotal m; grpcRequestDuration m ].

(** The label names that [NewPrometheusMetrics] declares, in the same
    order. *)
Definition declaredLabels : list (list string) :=
  [ ["type"]; ["type"]; []; ["type"; "error_type"]; []; ["ingredient"; "valid"];
    []; []; ["recipe_type"]; ["method"; "status"]; ["method"] ].

End infraMetrics.

(** A stream on a business address, and a stream handler that fails after
    one second. *)
Definition doughStream : stream.StreamServerInfo :=
  {| stream.FullMethod := "/calculator.CalculatorService/CalculateDough" |}.

Definition failingStream : StreamHandler unit unit Z :=
  λ _ _ w, (Some (StatusError codes.Unavailable "service down"), (w + 1000000000)%Z).

(** ** A small strategy table for the examples *)

(** A pan with one measure, the side of a square. *)
Record squarePan : Type := {
  squareShape : string;
  squareSide : option float;
  squareArea : float
}.

(** Only squares are supported; the calculation needs the side. *)
Definition squareGetStrategy (shape : string) : bool * error :=
  if String.eqb shape "square" then (true, None)
  else (false, Some (PlainError "unknown shape")).

Definition squareCalculate (strategy : bool) (side : option float)
  : squarePan * error :=
  match side with
  | Some x =>
      ({| squareShape := "square"; squareSide := side;
          squareArea := PrimFloat.mul x x |}, None)
  | None =>
      ({| squareShape := ""; squareSide := None; squareArea := 0%float |},
       Some (PlainError "missing side"))
  end.

#[export] Instance squareStrategies : application.Strategies squarePan := {|
  application.Measures := option float;
  application.Strategy := bool;
  application.Shape := squareShape;
  application.Measures_ := squareSide;
  application.Area := squareArea;
  application.GetStrategy := squareGetStrategy;
  application.Calculate := squareCalculate
|}.

Definition squareOf (side : float) : squarePan :=
  {| squareShape := "square"; squareSide := Some side; squareArea := 0%float |}.

Definition roundPan : squarePan :=
  {| squareShape := "round"; squareSide := None; squareArea := 0%float |}.

(** ** Tactics *)

(** Settles the bounds checks [a <=? b] and [a <? b] that hold by linear
    arithmetic. *)
Ltac bounds_hold :=
  repeat match goal with
    | |- context [(?a <=? ?b)%nat] =>
        replace (a <=? b)%nat with true by (symmetry; apply Nat.leb_le; simpl; lia)
    | |- context [(?a <? ?b)%nat] =>
        replace (a <? b)%nat with true by (symmetry; apply Nat.ltb_lt; simpl; lia)
    end.

(** Works through the registrations of [NewPrometheusMetrics] in a
    hypothesis that says it returned. *)
Ltac registrations H :=
  unfold infraMetrics.NewPrometheusMetrics, prometheus.New in H;
  repeat match type of H with
    | context [decide (?x ∈ ?r)] =>
        destruct (decide (x ∈ r)); cbn [obind fst snd] in H; [discriminate|]
    end.

(** Unfolds the methods of [PrometheusMetrics]. *)
Ltac prometheus_methods :=
  unfold infraMetrics.IncrementCalculationsTotal,
    infraMetrics.RecordCalculationDuration, infraMetrics.SetActiveCalculations,
    infraMetrics.IncrementCalculationErrors, infraMetrics.RecordDoughAccuracy,
    infraMetrics.IncrementIngredientValidations, infraMetrics.RecordDoughWeight,
    infraMetrics.RecordDoughHydration, infraMetrics.IncrementRecipeTypes,
    infraMetrics.IncrementGRPCRequests, infraMetrics.RecordGRPCDuration,
    prometheus.WithLabelValues.

(** * Properties *)

(** ** Strings *)

Lemma str_length_app (a b : string) :
  String.length (a +:+ b) = String.length a + String.length b.
Proof. induction a as [|c a IH]; simpl; [reflexivity | now rewrite IH]. Qed.

Lemma str_app_cons (x : ascii) (a b : string) :
  String x a +:+ b = String x (a +:+ b).
Proof. reflexivity. Qed.

Lemma str_app_assoc (a b c : string) : (a +:+ b) +:+ c = a +:+ b +:+ c.
Proof.
  induction a as [|x a IH]; [reflexivity | now rewrite !str_app_cons, IH].
Qed.

Lemma str_app_nil_r (a : string) : a +:+ "" = a.
Proof.
  induction a as [|x a IH]; [reflexivity | now rewrite str_app_cons, IH].
Qed.

Lemma get_app_after (a b : string) (j : nat) :
  String.get (String.length a + j) (a +:+ b) = String.get j b.
Proof. induction a as [|x a IH]; simpl; [reflexivity | exact IH]. Qed.

Lemma get_app_at (a b : string) (c : ascii) :
  String.get (String.length a) (a +:+ String c b) = Some c.
Proof.
  rewrite <- (Nat.add_0_r (String.length a)), get_app_after. reflexivity.
Qed.

Lemma get_in_range (s : string) (i : nat) :
  (i < String.length s)%nat → ∃ c, String.get i s = Some c.
Proof.
  revert i. induction s as [|x s IH]; simpl; intros i Hi; [lia|].
  destruct i as [|i]; [eauto | apply IH; lia].
Qed.

Lemma substring_app_l (a b : string) :
  String.substring 0 (String.length a) (a +:+ b) = a.
Proof.
  induction a as [|x a IH]; simpl; [now destruct b | now rewrite IH].
Qed.

Lemma substring_app_r (a b : string) (n m : nat) :
  String.substring (String.length a + n) m (a +:+ b) = String.substring n m b.
Proof. induction a as [|x a IH]; simpl; [reflexivity | exact IH]. Qed.

(** Slicing out the middle of a string. *)
Lemma slice_middle (pre cur rest : string) :
  gostr.slice (pre +:+ cur +:+ rest)
    (String.length pre) (String.length pre + String.length cur) = Returns cur.
Proof.
  unfold gostr.slice, gostr.len. rewrite !str_length_app. bounds_hold.
  simpl. f_equal.
  replace (String.length pre + String.length cur - String.length pre)
    with (String.length cur) by lia.
  rewrite <- (Nat.add_0_r (String.length pre)) at 1.
  rewrite substring_app_r. apply substring_app_l.
Qed.

Lemma slice_in_range (s : string) (lo hi : nat) :
  (lo <= hi)%nat → (hi <= String.length s)%nat →
  ∃ r, gostr.slice s lo hi = Returns r.
Proof.
  intros Hlo Hhi. unfold gostr.slice, gostr.len. bounds_hold.
  simpl. eauto.
Qed.

Lemma index_in_range (s : string) (i : nat) :
  (i < String.length s)%nat → ∃ c, gostr.index s i = Returns c.
Proof.
  intros Hi. destruct (get_in_range s i Hi) as [c Hc].
  exists c. unfold gostr.index. now rewrite Hc.
Qed.

(** ** [splitMethod]: the split at the last slash *)

Lemma hasByte_get (c : ascii) (s : string) (i : nat) :
  address.hasByte c s = false → String.get i s ≠ Some c.
Proof.
  revert i. induction s as [|x s IH]; simpl; intros i Hno; [discriminate|].
  apply orb_false_iff in Hno as [Hx Hs].
  destruct i as [|i]; [|now apply IH].
  intros [= ->]. rewrite Ascii.eqb_refl in Hx. discriminate.
Qed.

Lemma slice_prefix (a rest : string) :
  gostr.slice (a +:+ rest) 0 (String.length a) = Returns a.
Proof. exact (slice_middle "" a rest). Qed.

Lemma slice_suffix (a b : string) (c : ascii) :
  gostr.slice (a +:+ String c b) (String.length a + 1)
    (gostr.len (a +:+ String c b)) = Returns b.
Proof.
  pose proof (slice_middle (a +:+ String c "") b "") as Hmid.
  rewrite str_app_nil_r, str_app_assoc, str_length_app in Hmid.
  simpl in Hmid. unfold gostr.len. rewrite str_length_app. simpl.
  now replace (String.length a + S (String.length b))
    with (String.length a + 1 + String.length b) by lia.
Qed.

Lemma splitMethod_loop_no_slash (s : string) (k : nat) :
  address.hasByte "/" s = false → (k <= String.length s)%nat →
  splitMethod_loop s k = Returns [s].
Proof.
  intros Hno. induction k as [|k IH]; intros Hk; simpl; [reflexivity|].
  destruct (get_in_range s k) as [c Hc]; [lia|].
  unfold gostr.index. rewrite Hc. simpl.
  destruct (Ascii.eqb_spec c "/") as [->|_]; [|apply IH; lia].
  now apply hasByte_get with (i := k) in Hno.
Qed.

Lemma splitMethod_loop_last_slash (a b : string) (j : nat) :
  address.hasByte "/" b = false → (j <= String.length b)%nat →
  splitMethod_loop (a +:+ String "/" b) (S (String.length a + j)) = Returns [a; b].
Proof.
  intros Hno. induction j as [|j IH]; intros Hj.
  - simpl. unfold gostr.index. rewrite get_app_after. simpl.
    rewrite Nat.add_0_r, slice_prefix. simpl.
    now rewrite slice_suffix.
  - cbn [splitMethod_loop]. unfold gostr.index. rewrite get_app_after. simpl.
    destruct (get_in_range b j) as [c Hc]; [lia|]. rewrite Hc. simpl.
    destruct (Ascii.eqb_spec c "/") as [->|_].
    + now apply hasByte_get with (i := j) in Hno.
    + rewrite Nat.add_succ_r. apply IH. lia.
Qed.

Lemma splitMethod_no_slash (s : string) :
  address.hasByte "/" s = false → splitMethod s = Returns [s].
Proof. intros Hno. now apply splitMethod_loop_no_slash. Qed.

Lemma splitMethod_last_slash (a b : string) :
  address.hasByte "/" b = false →
  splitMethod (a +:+ String "/" b) = Returns [a; b].
Proof.
  intros Hno. unfold splitMethod, gostr.len. rewrite str_length_app. simpl.
  rewrite Nat.add_succ_r. now apply splitMethod_loop_last_slash.
Qed.

(** Every string either has no slash or splits at its last one. *)
Lemma last_slash_decomposition (s : string) :
  address.hasByte "/" s = false ∨
  ∃ a b, s = a +:+ String "/" b ∧ address.hasByte "/" b = false.
Proof.
  induction s as [|x s [Hno | (a & b & -> & Hno)]]; [now left | |].
  - destruct (Ascii.eqb_spec x "/") as [->|Hx].
    + right. now exists "", s.
    + left. simpl. rewrite Hno. now apply Ascii.eqb_neq in Hx as ->.
  - right. now exists (String x a), b.
Qed.

(** ** [splitService]: the non-empty fields between the dots *)

Lemma prepend_prepend (cur c : string) (fs : list string) :
  address.prepend cur (address.prepend c fs) = address.prepend (cur +:+ c) fs.
Proof. destruct fs as [|f fs]; simpl; [reflexivity | now rewrite str_app_assoc]. Qed.

Lemma fields_not_nil (s : string) : address.fields s ≠ [].
Proof.
  induction s as [|c s IH]; simpl; [discriminate|].
  destruct (Ascii.eqb c "."); [discriminate|].
  now destruct (address.fields s).
Qed.

Lemma prepend_empty (fs : list string) : fs ≠ [] → address.prepend "" fs = fs.
Proof. now destruct fs. Qed.

(** The invariant of the loop: [pre] has been split into [parts], [cur] is
    the field being read (it starts at [start]), [rest] is still to read. *)
Lemma splitService_loop_spec (rest s pre cur : string) (i start : nat)
    (parts : list string) :
  s = pre +:+ cur +:+ rest →
  start = String.length pre →
  i = String.length pre + String.length cur →
  splitService_loop s (String.length rest) i start parts =
  Returns (parts ++ filter (λ f, f ≠ "") (address.prepend cur (address.fields rest))).
Proof.
  revert s pre cur i start parts.
  induction rest as [|c rest IH]; intros s pre cur i start parts -> -> ->.
  - simpl. unfold gostr.len. rewrite !str_length_app. simpl.
    rewrite str_app_nil_r. destruct cur as [|x cur].
    + simpl. rewrite Nat.add_0_r, Nat.ltb_irrefl.
      now rewrite app_nil_r.
    + bounds_hold. rewrite Nat.add_0_r.
      pose proof (slice_middle pre (String x cur) "") as Hmid.
      rewrite str_app_nil_r in Hmid. now rewrite Hmid.
  - cbn [splitService_loop String.length]. unfold gostr.index.
    rewrite <- str_app_assoc, <- str_length_app, get_app_at. cbn [obind].
    destruct (Ascii.eqb_spec c ".") as [->|Hc].
    + rewrite str_app_assoc, str_length_app.
      assert (Hparts :
        (if (String.length pre <? String.length pre + String.length cur)%nat
         then part <~ gostr.slice (pre +:+ cur +:+ String "." rest)
                        (String.length pre)
                        (String.length pre + String.length cur) ;;
              Returns (parts ++ [part])
         else Returns parts)
        = Returns (parts ++ filter (λ f, f ≠ "") [cur])).
      { destruct cur as [|x cur].
        - simpl. now rewrite Nat.add_0_r, Nat.ltb_irrefl, app_nil_r.
        - bounds_hold. now rewrite slice_middle. }
      rewrite Hparts. cbn [obind].
      rewrite (IH _ (pre +:+ cur +:+ ".") "").
      * rewrite prepend_empty by apply fields_not_nil.
        simpl address.fields. simpl address.prepend.
        rewrite str_app_nil_r, <- app_assoc. do 2 f_equal.
        symmetry. apply (filter_app _ [cur]).
      * now rewrite !str_app_assoc.
      * rewrite !str_length_app. simpl. lia.
      * rewrite !str_length_app. simpl. lia.
    + rewrite str_app_assoc, str_length_app.
      rewrite (IH _ pre (cur +:+ String c "")).
      * simpl address.fields. apply Ascii.eqb_neq in Hc as ->.
        now rewrite prepend_prepend.
      * now rewrite !str_app_assoc.
      * reflexivity.
      * rewrite !str_length_app. simpl. lia.
Qed.

Lemma splitService_spec (s : string) :
  splitService s = Returns (address.segments s).
Proof.
  unfold splitService, address.segments, gostr.len.
  rewrite (splitService_loop_spec s s "" "" 0 0 []); try reflexivity.
  now rewrite prepend_empty by apply fields_not_nil.
Qed.

(** ** [extractMethodName] *)

Lemma extractMethodName_empty : extractMethodName "" = Returns "unknown".
Proof. reflexivity. Qed.

Lemma extractMethodName_no_leading_slash (c : ascii) (s : string) :
  c ≠ "/"%char → extractMethodName (String c s) = Returns "unknown".
Proof.
  intros Hc. unfold extractMethodName. simpl.
  now apply Ascii.eqb_neq in Hc as ->.
Qed.

(** After the leading slash, the rest of the address is split. *)
Lemma extractMethodName_leading_slash (t : string) :
  extractMethodName (String "/" t) =
  (parts <~ splitMethod t ;;
   if (length parts =? 2)%nat then
     service <~ gostr.elem parts 0 ;;
     serviceParts <~ splitService service ;;
     if (2 <=? length serviceParts)%nat then gostr.elem parts 1
     else Returns "unknown"
   else Returns "unknown").
Proof.
  unfold extractMethodName.
  change (gostr.index (String "/" t) 0) with (Returns "/"%char).
  cbn [gostr.len String.length Nat.ltb Nat.leb obind Ascii.eqb Bool.eqb].
  pose proof (slice_suffix "" t "/") as Hrest.
  change ("" +:+ String "/" t) with (String "/" t) in Hrest.
  cbn [String.length Nat.add gostr.len] in Hrest.
  now rewrite Hrest.
Qed.

Lemma extractMethodName_no_method (t : string) :
  address.hasByte "/" t = false →
  extractMethodName (String "/" t) = Returns "unknown".
Proof.
  intros Hno. rewrite extractMethodName_leading_slash.
  now rewrite splitMethod_no_slash.
Qed.

Lemma extractMethodName_split (service method : string) :
  address.hasByte "/" method = false →
  extractMethodName (String "/" (service +:+ String "/" method)) =
  Returns (if (2 <=? length (address.segments service))%nat
           then method else "unknown").
Proof.
  intros Hno. rewrite extractMethodName_leading_slash.
  rewrite splitMethod_last_slash by assumption. cbn [obind length Nat.eqb].
  cbn [gostr.elem lookup list_lookup obind]. rewrite splitService_spec.
  cbn [obind]. now destruct (2 <=? length (address.segments service))%nat.
Qed.

(** A well-formed address yields its method name. *)
Lemma extractMethodName_wellformed (service method : string) :
  address.hasByte "/" method = false →
  (2 <= length (address.segments service))%nat →
  extractMethodName ("/" +:+ service +:+ "/" +:+ method) = Returns method.
Proof.
  intros Hno Hsegs.
  change ("/" +:+ service +:+ "/" +:+ method)
    with (String "/" (service +:+ String "/" method)).
  rewrite extractMethodName_split by assumption.
  now apply Nat.leb_le in Hsegs as ->.
Qed.

Lemma extractMethodName_total (fullMethod : string) :
  ∃ name, extractMethodName fullMethod = Returns name.
Proof.
  destruct fullMethod as [|c t]; [now exists "unknown"|].
  destruct (Ascii.eqb_spec c "/") as [->|Hc].
  - destruct (last_slash_decomposition t) as [Hno | (a & b & -> & Hno)].
    + exists "unknown". now apply extractMethodName_no_method.
    + eexists. now apply extractMethodName_split.
  - exists "unknown". now apply extractMethodName_no_leading_slash.
Qed.

(** C8.  Parsing a method address never panics: for every string
    [extractMethodName] returns a name.  For every malformed string (the
    empty string, a string without a leading slash, a string with nothing to
    split after the leading slash, a string whose service path has fewer
    than two dot-separated segments) the name is the sentinel ["unknown"]. *)
Theorem extractMethodName_total_unknown_on_malformed (fullMethod : string) :
  (∃ name, extractMethodName fullMethod = Returns name) ∧
  (address.Malformed fullMethod → extractMethodName fullMethod = Returns "unknown").
Proof.
  split; [apply extractMethodName_total|].
  intros [ | c s Hc | s Hno | service method Hno Hsegs ].
  - apply extractMethodName_empty.
  - now apply extractMethodName_no_leading_slash.
  - now apply extractMethodName_no_method.
  - change ("/" +:+ service +:+ "/" +:+ method)
      with (String "/" (service +:+ String "/" method)).
    rewrite extractMethodName_split by assumption.
    now apply Nat.leb_gt in Hsegs as ->.
Qed.

Lemma extractMethodName_witness :
  address.Malformed "/Service/Method" ∧
  extractMethodName "/Service/Method" = Returns "unknown".
Proof.
  assert (Hbad : address.Malformed "/Service/Method").
  { apply (address.ShortServicePath "Service" "Method"); [reflexivity|].
    vm_compute. lia. }
  split; [exact Hbad|].
  exact (proj2 (extractMethodName_total_unknown_on_malformed "/Service/Method") Hbad).
Defined.

(** The table of the repository's [TestExtractMethodName]. *)
Example extractMethodName_dough :
  extractMethodName "/calculator.CalculatorService/CalculateDough" = Returns "CalculateDough".
Proof. reflexivity. Qed.

Example extractMethodName_ingredients :
  extractMethodName "/calculator.CalculatorService/CalculateIngredients"
  = Returns "CalculateIngredients".
Proof. reflexivity. Qed.

Example extractMethodName_invalid : extractMethodName "InvalidMethod" = Returns "unknown".
Proof. reflexivity. Qed.

Example extractMethodName_no_service : extractMethodName "/Method" = Returns "unknown".
Proof. reflexivity. Qed.

(** An address with an empty method part is not among the malformed ones:
    its method name is the empty string. *)
Example extractMethodName_empty_method : extractMethodName "/a.b/" = Returns "".
Proof. reflexivity. Qed.

(** ** The method classifier *)

Lemma isCalculationMethod_iff (fullMethod : string) :
  isCalculationMethod fullMethod = true ↔ In fullMethod calculationMethods.
Proof.
  unfold isCalculationMethod.
  induction calculationMethods as [|method rest IH]; simpl; [easy|].
  destruct (String.eqb_spec fullMethod method) as [->|Hne]; [tauto|].
  rewrite IH. split; [tauto|]. intros [Heq|Hin]; [congruence | exact Hin].
Qed.

(** C6.  An address is a business address exactly when it is one of the
    three registered addresses; these three map to their snake-case labels
    and every other address maps to ["unknown_calculation"]. *)
Theorem classification_is_exact_match (fullMethod : string) :
  (isCalculationMethod fullMethod = true ↔
     fullMethod = "/calculator.CalculatorService/CalculateDough" ∨
     fullMethod = "/calculator.CalculatorService/CalculateIngredients" ∨
     fullMethod = "/calculator.CalculatorService/OptimizeRecipe") ∧
  getCalculationType "/calculator.CalculatorService/CalculateDough"
    = "dough_calculation" ∧
  getCalculationType "/calculator.CalculatorService/CalculateIngredients"
    = "ingredient_calculation" ∧
  getCalculationType "/calculator.CalculatorService/OptimizeRecipe"
    = "recipe_optimization" ∧
  (isCalculationMethod fullMethod = false →
     getCalculationType fullMethod = "unknown_calculation").
Proof.
  split; [|repeat split].
  - rewrite isCalculationMethod_iff. simpl. intuition congruence.
  - intros Hnot. unfold isCalculationMethod in Hnot. simpl in Hnot.
    unfold getCalculationType.
    destruct (String.eqb fullMethod "/calculator.CalculatorService/CalculateDough");
      [discriminate|].
    destruct (String.eqb fullMethod "/calculator.CalculatorService/CalculateIngredients");
      [discriminate|].
    destruct (String.eqb fullMethod "/calculator.CalculatorService/OptimizeRecipe");
      [discriminate | reflexivity].
Qed.

Lemma classification_witness :
  isCalculationMethod "/calculator.CalculatorService/UnknownMethod" = false ∧
  getCalculationType "/calculator.CalculatorService/UnknownMethod"
    = "unknown_calculation".
Proof.
  split; [reflexivity|].
  apply (classification_is_exact_match "/calculator.CalculatorService/UnknownMethod").
  reflexivity.
Defined.

(** The negative rows of the repository's [TestIsCalculationMethod]. *)
Example isCalculationMethod_health :
  isCalculationMethod "/calculator.CalculatorService/GetHealth" = false.
Proof. reflexivity. Qed.

Example isCalculationMethod_other_service :
  isCalculationMethod "/other.Service/CalculateDough" = false.
Proof. reflexivity. Qed.

(** A malformed address is classified too. *)
Example getCalculationType_malformed : getCalculationType "" = "unknown_calculation".
Proof. reflexivity. Qed.

(** ** The error taxonomy *)

(** C7.  The technical label is one of six; an unstructured error and an
    error whose code has no label of its own (deadline-exceeded among them)
    get the catch-all ["error"].  The domain label ["timeout"] is given to
    deadline-exceeded and to nothing else, and an unstructured error gets
    ["unknown_error"].  Neither label is a function of the other. *)
Theorem taxonomies_not_isomorphic (err : error) (c : codes.Code) (msg : string) :
  In (getStatusCode err)
     ["success"; "invalid_argument"; "not_found"; "internal_error";
      "unavailable"; "error"] ∧
  getStatusCode (Some (PlainError msg)) = "error" ∧
  (hasTechnicalLabel c = false ↔ getStatusCode (Some (StatusError c msg)) = "error") ∧
  getStatusCode (Some (StatusError codes.DeadlineExceeded msg)) = "error" ∧
  (getErrorType err = "timeout" ↔
     ∃ m, err = Some (StatusError codes.DeadlineExceeded m)) ∧
  getErrorType (Some (PlainError msg)) = "unknown_error" ∧
  ¬ (∃ f, ∀ e, getErrorType e = f (getStatusCode e)) ∧
  ¬ (∃ g, ∀ e, getStatusCode e = g (getErrorType e)).
Proof.
  repeat split.
  - destruct err as [[[] m|m]|]; simpl; tauto.
  - destruct c; simpl; intros; first [reflexivity | discriminate].
  - destruct c; simpl; intros; first [reflexivity | discriminate].
  - destruct err as [[[] m|m]|]; simpl; intros; try discriminate. eauto.
  - intros [m ->]. reflexivity.
  - intros [f Hf].
    assert (H1 : "timeout" = f "error")
      by exact (Hf (Some (StatusError codes.DeadlineExceeded ""))).
    assert (H2 : "unknown_error" = f "error") by exact (Hf (Some (PlainError ""))).
    rewrite <- H2 in H1. discriminate.
  - intros [g Hg].
    assert (H1 : "success" = g "unknown_error") by exact (Hg None).
    assert (H2 : "error" = g "unknown_error") by exact (Hg (Some (PlainError ""))).
    rewrite <- H2 in H1. discriminate.
Qed.

(** The rows of the repository's [TestGetStatusCode] and [TestGetErrorType]
    that the statement above does not spell out. *)
Example getStatusCode_nil : getStatusCode None = "success".
Proof. reflexivity. Qed.

Example getStatusCode_invalid_argument :
  getStatusCode (Some (StatusError codes.InvalidArgument "invalid input"))
  = "invalid_argument".
Proof. reflexivity. Qed.

Example getErrorType_rows :
  map (λ c, getErrorType (Some (StatusError c "")))
      [codes.InvalidArgument; codes.NotFound; codes.Internal; codes.Unavailable;
       codes.DeadlineExceeded; codes.Unknown]
  = ["invalid_input"; "recipe_not_found"; "calculation_error";
     "service_unavailable"; "timeout"; "unknown_error"].
Proof. reflexivity. Qed.

(** ** The recorder *)

Lemma calls_app (p : DomainCall → bool) (l1 l2 : DomainLog) :
  calls p (l1 ++ l2) = calls p l1 + calls p l2.
Proof. unfold calls. now rewrite List.filter_app, length_app. Qed.

Lemma validateIngredients_log (names : list string) (log : DomainLog) :
  validateIngredients names log =
  log ++ map (λ i, CallIncrementIngredientValidations i true) names.
Proof.
  revert log. induction names as [|i names IH]; intros log; simpl.
  - now rewrite app_nil_r.
  - rewrite IH. simpl. now rewrite <- app_assoc.
Qed.

Lemma validateIngredients_replay {M : Type} `{CalculatorMetrics M}
    (names : list string) (m : M) :
  validateIngredients names m =
  replay (map (λ i, CallIncrementIngredientValidations i true) names) m.
Proof.
  revert m. induction names as [|i names IH]; intros m; simpl; [reflexivity|].
  apply IH.
Qed.

Lemma replay_app {M : Type} `{CalculatorMetrics M} (l1 l2 : DomainLog) (m : M) :
  replay (l1 ++ l2) m = replay l2 (replay l1 m).
Proof. revert m. induction l1 as [|c l1 IH]; intros m; simpl; [reflexivity | apply IH]. Qed.

(** Counting the validations of one ingredient. *)
Lemma calls_validations (name : string) (valid : bool) (names : list string) :
  calls (isValidationOf name valid)
        (map (λ i, CallIncrementIngredientValidations i true) names)
  = if valid then count_occ String.string_dec names name else 0.
Proof.
  unfold calls. induction names as [|i names IH]; simpl; [now destruct valid|].
  destruct (String.string_dec i name) as [->|Hne].
  - rewrite String.eqb_refl. destruct valid; simpl; [now rewrite IH | exact IH].
  - apply String.eqb_neq in Hne. rewrite Hne. simpl. exact IH.
Qed.

Lemma calls_validations_none (p : DomainCall → bool) (names : list string) :
  (∀ i v, p (CallIncrementIngredientValidations i v) = false) →
  calls p (map (λ i, CallIncrementIngredientValidations i true) names) = 0.
Proof.
  intros Hp. unfold calls. induction names as [|i names IH]; simpl; [reflexivity|].
  now rewrite Hp.
Qed.

Lemma RecordCalculation_log {Ctx : Type} (ctx : Ctx) (log : DomainLog)
    (result : CalculationResult) :
  metrics (RecordCalculation (NewMetricsRecorder log) ctx result) =
  log ++ (if Success result then recordedOnSuccess result
          else recordedOnFailure result).
Proof.
  unfold RecordCalculation, recordedOnSuccess, recordedOnFailure.
  destruct (Success result); simpl.
  - rewrite validateIngredients_log.
    destruct (gtZero (Weight result)), (gtZero (Hydration result)),
      (gtZero (Accuracy result)); simpl; now rewrite <- !app_assoc.
  - now rewrite <- !app_assoc.
Qed.

(** Whatever the sink, it receives the logged operations in the logged
    order. *)
Lemma RecordCalculation_replay {M Ctx : Type} `{CalculatorMetrics M}
    (ctx : Ctx) (m : M) (result : CalculationResult) :
  metrics (RecordCalculation (NewMetricsRecorder m) ctx result) =
  replay (if Success result then recordedOnSuccess result
          else recordedOnFailure result) m.
Proof.
  unfold RecordCalculation, recordedOnSuccess, recordedOnFailure.
  destruct (Success result); simpl; [|reflexivity].
  rewrite validateIngredients_replay.
  destruct (gtZero (Weight result)), (gtZero (Hydration result)),
    (gtZero (Accuracy result)); reflexivity.
Qed.

(** C4.  For a failed result the recorder increments the error counter of
    (type, error kind) once and sends no weight, hydration, accuracy or
    ingredient-validation record, whatever these fields hold. *)
Theorem failed_calculation_records_error_only {Ctx : Type} (ctx : Ctx)
    (log : DomainLog) (result : CalculationResult) :
  Success result = false →
  let new := [ CallIncrementCalculationsTotal (Type_ result);
               CallRecordCalculationDuration (Type_ result) (Duration result);
               CallIncrementCalculationErrors (Type_ result) (ErrorType result) ] in
  metrics (RecordCalculation (NewMetricsRecorder log) ctx result) = log ++ new ∧
  calls (isErrorOf (Type_ result) (ErrorType result)) new = 1 ∧
  calls isQuality new = 0.
Proof.
  intros Hfailed new. split; [|split].
  - rewrite RecordCalculation_log, Hfailed. reflexivity.
  - unfold calls. simpl. now rewrite !String.eqb_refl.
  - reflexivity.
Qed.

Lemma failed_calculation_witness :
  metrics (RecordCalculation (NewMetricsRecorder ([] : DomainLog)) tt failedWithValues)
  = [ CallIncrementCalculationsTotal "dough_calculation";
      CallRecordCalculationDuration "dough_calculation" 50000000%Z;
      CallIncrementCalculationErrors "dough_calculation" "invalid_ingredients" ].
Proof.
  exact (proj1 (failed_calculation_records_error_only tt [] failedWithValues eq_refl)).
Defined.

(** C5.  For a successful result the recorder sends the weight, the
    hydration and the accuracy each exactly when it is greater than zero,
    and one validation with [valid = true] for each name of the ingredient
    list (none with [valid = false]).  For the result of the partial-data
    test (weight 0, hydration 65.0, accuracy 0, ingredients ["flour"]) the
    only quality records are the hydration and the validation of flour. *)
Theorem successful_calculation_records_positive_values {Ctx : Type} (ctx : Ctx)
    (log : DomainLog) (result : CalculationResult) (name : string) :
  (Success result = true →
   let new :=
     [ CallIncrementCalculationsTotal (Type_ result);
       CallRecordCalculationDuration (Type_ result) (Duration result) ]
     ++ (if gtZero (Weight result) then [CallRecordDoughWeight (Weight result)] else [])
     ++ (if gtZero (Hydration result)
         then [CallRecordDoughHydration (Hydration result)] else [])
     ++ (if gtZero (Accuracy result)
         then [CallRecordDoughAccuracy (Accuracy result)] else [])
     ++ map (λ i, CallIncrementIngredientValidations i true) (IngredientsUsed result) in
   metrics (RecordCalculation (NewMetricsRecorder log) ctx result) = log ++ new ∧
   calls isWeight new = (if gtZero (Weight result) then 1 else 0) ∧
   calls isHydration new = (if gtZero (Hydration result) then 1 else 0) ∧
   calls isAccuracy new = (if gtZero (Accuracy result) then 1 else 0) ∧
   calls (isValidationOf name true) new
     = count_occ String.string_dec (IngredientsUsed result) name ∧
   calls (isValidationOf name false) new = 0) ∧
  metrics (RecordCalculation (NewMetricsRecorder log) ctx partialData) =
  log ++ [ CallIncrementCalculationsTotal "quick_calculation";
           CallRecordCalculationDuration "quick_calculation" 25000000%Z;
           CallRecordDoughHydration 65.0%float;
           CallIncrementIngredientValidations "flour" true ].
Proof.
  split; [|now rewrite RecordCalculation_log].
  intros Hok new. split.
  { rewrite RecordCalculation_log, Hok. reflexivity. }
  subst new. rewrite !calls_app, !calls_validations.
  rewrite !calls_validations_none by reflexivity.
  destruct (gtZero (Weight result)), (gtZero (Hydration result)),
    (gtZero (Accuracy result)); repeat split; reflexivity.
Qed.

Lemma successful_calculation_witness :
  Success partialData = true ∧
  metrics (RecordCalculation (NewMetricsRecorder ([] : DomainLog)) tt partialData)
  = [ CallIncrementCalculationsTotal "quick_calculation";
      CallRecordCalculationDuration "quick_calculation" 25000000%Z;
      CallRecordDoughHydration 65.0%float;
      CallIncrementIngredientValidations "flour" true ].
Proof.
  split; [reflexivity|].
  exact (proj1 (proj1 (successful_calculation_records_positive_values
                         tt [] partialData "flour") eq_refl)).
Defined.

(** Zero, negative zero and not-a-number are not greater than zero. *)
Example gtZero_sentinels :
  gtZero 0%float = false ∧ gtZero (-0)%float = false ∧ gtZero nan = false ∧
  gtZero 65.0%float = true.
Proof. repeat split. Qed.

(** The repository's recorder tests, on the mock sink. *)
Example mock_partial_data :
  let m := metrics (RecordCalculation
                      (NewMetricsRecorder mock.NewMockCalculatorMetrics) tt partialData) in
  mock.doughWeights m = [] ∧ mock.doughHydrations m = [65.0%float] ∧
  mock.doughAccuracies m = [] ∧
  mock.ingredientValidations m !! "flour" = Some {[ true := 1%Z ]}.
Proof. vm_compute. repeat split. Qed.

Example mock_three_calculations :
  let m := metrics (foldl (λ r result, RecordCalculation r tt result)
                      (NewMetricsRecorder mock.NewMockCalculatorMetrics)
                      threeCalculations) in
  mock.GetCalculationsTotal m "dough_calculation" = 3%Z ∧
  length (mock.GetCalculationDurations m "dough_calculation") = 3 ∧
  mock.doughWeights m = [500.0%float; 750.0%float] ∧
  mock.GetCalculationErrors m "dough_calculation" "invalid_input" = 1%Z.
Proof. vm_compute. repeat split. Qed.

(** ** The unary interceptor *)

Lemma active_plus_one : goint.add getCurrentActiveCalculations 1 = 1%Z.
Proof. reflexivity. Qed.

Lemma active_minus_one : goint.sub getCurrentActiveCalculations 1 = (-1)%Z.
Proof. reflexivity. Qed.

Lemma replay_log (new log : DomainLog) : replay new log = log ++ new.
Proof.
  revert log. induction new as [|c new IH]; intros log; simpl.
  - now rewrite app_nil_r.
  - rewrite IH. destruct c; simpl; now rewrite <- app_assoc.
Qed.

Lemma calls_domainCallsOf_quality (fullMethod : string) (e : error)
    (d : time.Duration) :
  calls isQuality (domainCallsOf fullMethod e d) = 0.
Proof.
  unfold domainCallsOf.
  destruct (isCalculationMethod fullMethod); [|reflexivity].
  now destruct e.
Qed.

Section Interceptor.

Context {Ctx Req Resp W : Type} `{time.Clock W}.
Variables (ctx : Ctx) (req : Req) (info : UnaryServerInfo).
Variables (handler : UnaryHandler Ctx Req Resp W) (w : W).

(** What the handler returns, and the world it leaves. *)
Variables (resp : Resp) (err : error) (w' : W).
Hypothesis handler_returns : handler ctx req w = ((resp, err), w').

(** The time the handler took. *)
Abbreviation duration := (time.Since (time.Now w) w').

(** One call, for any pair of sinks: the interceptor returns, and its
    effects are the domain calls of [domainCallsOf] followed on the
    technical sink by one request count and one duration. *)
Lemma UnaryServerInterceptor_run {D T : Type}
    `{CalculatorMetrics D} `{GRPCMetrics T} (m : MetricsMiddleware D T) :
  ∃ name,
    extractMethodName (FullMethod info) = Returns name ∧
    UnaryServerInterceptor m ctx req info handler w =
    Returns
      ((resp, err),
       {| domainMetrics :=
            replay (domainCallsOf (FullMethod info) err duration) (domainMetrics m);
          prometheusMetrics :=
            RecordGRPCDuration name duration
              (IncrementGRPCRequests name (getStatusCode err) (prometheusMetrics m)) |},
       w').
Proof.
  destruct (extractMethodName_total (FullMethod info)) as [name Hname].
  exists name. split; [exact Hname|].
  unfold UnaryServerInterceptor, domainCallsOf.
  rewrite handler_returns, Hname. cbn [obind].
  rewrite active_plus_one, active_minus_one.
  destruct (isCalculationMethod (FullMethod info)); [|now destruct m].
  destruct err; reflexivity.
Qed.

(** The same on the two call logs. *)
Lemma UnaryServerInterceptor_logs (dlog : DomainLog) (tlog : GRPCLog) :
  ∃ name,
    extractMethodName (FullMethod info) = Returns name ∧
    UnaryServerInterceptor (NewMetricsMiddleware dlog tlog) ctx req info handler w =
    Returns
      ((resp, err),
       {| domainMetrics := dlog ++ domainCallsOf (FullMethod info) err duration;
          prometheusMetrics :=
            tlog ++ [ CallIncrementGRPCRequests name (getStatusCode err);
                      CallRecordGRPCDuration name duration ] |},
       w').
Proof.
  destruct (UnaryServerInterceptor_run (NewMetricsMiddleware dlog tlog))
    as (name & Hname & Hrun).
  exists name. split; [exact Hname|]. rewrite Hrun. cbn.
  now rewrite replay_log, <- app_assoc.
Qed.

(** C9.  Whatever the address, the request and the sinks, the interceptor
    returns, and what it returns is the response and the error that the
    handler returned, be the error nil or not. *)
Theorem interceptor_returns_handler_result {D T : Type}
    `{CalculatorMetrics D} `{GRPCMetrics T} (m : MetricsMiddleware D T) :
  ∃ m', UnaryServerInterceptor m ctx req info handler w = Returns ((resp, err), m', w').
Proof.
  destruct (UnaryServerInterceptor_run m) as (name & _ & Hrun).
  rewrite Hrun. eexists. reflexivity.
Qed.

(** C3.  For an address that is not a business address the interceptor
    leaves the domain sink as it was, and sends the technical sink one
    request count and one duration. *)
Theorem non_business_call_is_technical_only (dlog : DomainLog) (tlog : GRPCLog) :
  isCalculationMethod (FullMethod info) = false →
  ∃ name,
    extractMethodName (FullMethod info) = Returns name ∧
    UnaryServerInterceptor (NewMetricsMiddleware dlog tlog) ctx req info handler w =
    Returns
      ((resp, err),
       {| domainMetrics := dlog;
          prometheusMetrics :=
            tlog ++ [ CallIncrementGRPCRequests name (getStatusCode err);
                      CallRecordGRPCDuration name duration ] |},
       w').
Proof.
  intros Hnot.
  destruct (UnaryServerInterceptor_logs dlog tlog) as (name & Hname & Hrun).
  exists name. split; [exact Hname|]. rewrite Hrun.
  unfold domainCallsOf. rewrite Hnot. now rewrite app_nil_r.
Qed.

(** C10.  The extractor yields nothing for every response, and on every
    path the interceptor sends its domain sink no weight, hydration,
    accuracy, ingredient-validation or recipe-type record. *)
Theorem interceptor_never_records_quality (dlog : DomainLog) (tlog : GRPCLog) :
  (∀ r : Resp, extractBusinessMetrics r = None) ∧
  ∃ new m',
    UnaryServerInterceptor (NewMetricsMiddleware dlog tlog) ctx req info handler w =
    Returns ((resp, err), m', w') ∧
    domainMetrics m' = dlog ++ new ∧
    calls isQuality new = 0.
Proof.
  split; [reflexivity|].
  destruct (UnaryServerInterceptor_logs dlog tlog) as (name & _ & Hrun).
  exists (domainCallsOf (FullMethod info) err duration). eexists.
  split; [exact Hrun|]. split; [reflexivity|].
  apply calls_domainCallsOf_quality.
Qed.

(** C2, as the code has it.  [RecordCalculation] increments the total of
    the result's type once and records its duration once, for a failed
    result as for a successful one.  The unary interceptor, which does not
    go through [RecordCalculation], does so for a business call whose
    handler returns no error; for a failed business call it increments the
    error counter only. *)
Theorem count_and_duration_once_per_recorded_call
    (log : DomainLog) (result : CalculationResult)
    (dlog : DomainLog) (tlog : GRPCLog) :
  (∃ new,
     metrics (RecordCalculation (NewMetricsRecorder log) ctx result) = log ++ new ∧
     calls (isTotalOf (Type_ result)) new = 1 ∧
     calls (isDurationOf (Type_ result)) new = 1) ∧
  (isCalculationMethod (FullMethod info) = true →
   ∃ new m',
     UnaryServerInterceptor (NewMetricsMiddleware dlog tlog) ctx req info handler w =
     Returns ((resp, err), m', w') ∧
     domainMetrics m' = dlog ++ new ∧
     let calculationType := getCalculationType (FullMethod info) in
     match err with
     | None =>
         calls (isTotalOf calculationType) new = 1 ∧
         calls (isDurationOf calculationType) new = 1 ∧
         In (CallRecordCalculationDuration calculationType duration) new
     | Some _ =>
         calls (isTotalOf calculationType) new = 0 ∧
         calls (isDurationOf calculationType) new = 0 ∧
         calls (isErrorOf calculationType (getErrorType err)) new = 1
     end).
Proof.
  split.
  - eexists. split; [apply RecordCalculation_log|].
    destruct (Success result); unfold recordedOnSuccess, recordedOnFailure.
    + rewrite !calls_app, !calls_validations_none by reflexivity.
      unfold calls. simpl. rewrite !String.eqb_refl.
      now destruct (gtZero (Weight result)), (gtZero (Hydration result)),
        (gtZero (Accuracy result)).
    + unfold calls. simpl. now rewrite !String.eqb_refl.
  - intros Hbusiness.
    destruct (UnaryServerInterceptor_logs dlog tlog) as (name & _ & Hrun).
    exists (domainCallsOf (FullMethod info) err duration). eexists.
    split; [exact Hrun|]. split; [reflexivity|].
    unfold domainCallsOf. rewrite Hbusiness.
    destruct err; unfold calls; simpl; rewrite !String.eqb_refl; simpl; tauto.
Qed.

(** C1, as the code has it.  During a business call the gauge is set
    twice, to 1 before the handler and to -1 after it, since the current
    count is read from a placeholder that is always zero; on the mock sink
    the gauge is therefore -1 after the call, whatever it was before. *)
Theorem gauge_is_minus_one_after_business_call
    (dlog : DomainLog) (tlog : GRPCLog)
    (m : MetricsMiddleware mock.MockCalculatorMetrics GRPCLog) :
  isCalculationMethod (FullMethod info) = true →
  (∃ new ml,
     UnaryServerInterceptor (NewMetricsMiddleware dlog tlog) ctx req info handler w =
     Returns ((resp, err), ml, w') ∧
     domainMetrics ml = dlog ++ new ∧
     List.filter isGauge new =
     [CallSetActiveCalculations 1; CallSetActiveCalculations (-1)]) ∧
  (∃ m',
     UnaryServerInterceptor m ctx req info handler w = Returns ((resp, err), m', w') ∧
     mock.activeCalculations (domainMetrics m') = (-1)%Z).
Proof.
  intros Hbusiness. split.
  - destruct (UnaryServerInterceptor_logs dlog tlog) as (name & _ & Hrun).
    exists (domainCallsOf (FullMethod info) err duration). eexists.
    split; [exact Hrun|]. split; [reflexivity|].
    unfold domainCallsOf. rewrite Hbusiness. now destruct err.
  - destruct (UnaryServerInterceptor_run m) as (name & _ & Hrun).
    eexists. split; [exact Hrun|]. cbn [domainMetrics].
    unfold domainCallsOf. rewrite Hbusiness. now destruct err.
Qed.

End Interceptor.

(** *** The interceptor on the calls of the repository's tests *)

Lemma non_business_call_witness :
  isCalculationMethod (FullMethod healthInfo) = false ∧
  ∃ name,
    extractMethodName (FullMethod healthInfo) = Returns name ∧
    UnaryServerInterceptor loggingMiddleware tt "test request" healthInfo
      succeedingHandler 0%Z =
    Returns
      ((Some "success response", None),
       {| domainMetrics := [];
          prometheusMetrics := [ CallIncrementGRPCRequests name "success";
                                 CallRecordGRPCDuration name 10000000%Z ] |},
       10000000%Z).
Proof.
  split; [reflexivity|].
  exact (non_business_call_is_technical_only tt "test request" healthInfo
           succeedingHandler 0%Z _ _ _ eq_refl [] [] eq_refl).
Defined.

Lemma count_and_duration_witness :
  isCalculationMethod (FullMethod doughInfo) = true ∧
  ∃ new m',
    UnaryServerInterceptor loggingMiddleware tt "test request" doughInfo
      succeedingHandler 0%Z =
    Returns ((Some "success response", None), m', 10000000%Z) ∧
    domainMetrics m' = new ∧
    calls (isTotalOf "dough_calculation") new = 1 ∧
    calls (isDurationOf "dough_calculation") new = 1 ∧
    In (CallRecordCalculationDuration "dough_calculation" 10000000%Z) new.
Proof.
  split; [reflexivity|].
  exact (proj2 (count_and_duration_once_per_recorded_call tt "test request"
                  doughInfo succeedingHandler 0%Z _ _ _ eq_refl [] partialData [] [])
               eq_refl).
Defined.

(** The failed call of [TestMetricsMiddleware_UnaryServerInterceptor_Error]:
    the error counter is incremented, the total and the duration are not. *)
Lemma failed_business_call_is_not_counted :
  isCalculationMethod (FullMethod doughInfo) = true ∧
  (∃ m',
     UnaryServerInterceptor loggingMiddleware tt "test request" doughInfo
       failingHandler 0%Z =
     Returns ((None, Some (StatusError codes.InvalidArgument "invalid input")),
              m', 0%Z) ∧
     domainMetrics m' =
       [ CallSetActiveCalculations 1; CallSetActiveCalculations (-1);
         CallIncrementCalculationErrors "dough_calculation" "invalid_input" ] ∧
     calls (isTotalOf "dough_calculation") (domainMetrics m') = 0 ∧
     calls (isDurationOf "dough_calculation") (domainMetrics m') = 0) ∧
  (∃ m',
     UnaryServerInterceptor testMiddleware tt "test request" doughInfo
       failingHandler 0%Z =
     Returns ((None, Some (StatusError codes.InvalidArgument "invalid input")),
              m', 0%Z) ∧
     mock.GetCalculationErrors (domainMetrics m') "dough_calculation" "invalid_input"
       = 1%Z ∧
     mock.GetCalculationsTotal (domainMetrics m') "dough_calculation" = 0%Z ∧
     mock.GetCalculationDurations (domainMetrics m') "dough_calculation" = []).
Proof.
  split; [reflexivity|]. split.
  - eexists. split; [vm_compute; reflexivity|]. repeat split.
  - eexists. split; [vm_compute; reflexivity|]. repeat split.
Qed.

Lemma gauge_witness :
  isCalculationMethod (FullMethod doughInfo) = true ∧
  mock.activeCalculations (domainMetrics testMiddleware) = 0%Z ∧
  ∃ m',
    UnaryServerInterceptor testMiddleware tt "test request" doughInfo
      succeedingHandler 0%Z =
    Returns ((Some "success response", None), m', 10000000%Z) ∧
    mock.activeCalculations (domainMetrics m') = (-1)%Z.
Proof.
  split; [reflexivity|]. split; [reflexivity|].
  exact (proj2 (gauge_is_minus_one_after_business_call tt "test request"
                  doughInfo succeedingHandler 0%Z _ _ _ eq_refl [] [] testMiddleware
                  eq_refl)).
Defined.

Lemma interceptor_returns_witness :
  ∃ m',
    UnaryServerInterceptor testMiddleware tt "test request" doughInfo
      failingHandler 0%Z =
    Returns ((None, Some (StatusError codes.InvalidArgument "invalid input")),
             m', 0%Z).
Proof.
  exact (interceptor_returns_handler_result tt "test request" doughInfo
           failingHandler 0%Z _ _ _ eq_refl testMiddleware).
Defined.

Lemma never_records_quality_witness :
  ∃ new m',
    UnaryServerInterceptor loggingMiddleware tt "test request" doughInfo
      succeedingHandler 0%Z =
    Returns ((Some "success response", None), m', 10000000%Z) ∧
    domainMetrics m' = new ∧
    calls isQuality new = 0.
Proof.
  exact (proj2 (interceptor_never_records_quality tt "test request" doughInfo
                  succeedingHandler 0%Z _ _ _ eq_refl [] [])).
Defined.

(** [TestMetricsMiddleware_UnaryServerInterceptor_Success] on the mock. *)
Example interceptor_success_on_mock :
  ∃ m',
    UnaryServerInterceptor testMiddleware tt "test request" doughInfo
      succeedingHandler 0%Z =
    Returns ((Some "success response", None), m', 10000000%Z) ∧
    mock.GetCalculationsTotal (domainMetrics m') "dough_calculation" = 1%Z ∧
    mock.GetCalculationDurations (domainMetrics m') "dough_calculation"
      = [10000000%Z].
Proof. eexists. split; [vm_compute; reflexivity|]. repeat split. Qed.

(** Had the extractor yielded something, [recordBusinessMetrics] would have
    recorded it. *)
Example recordBusinessMetrics_records :
  recordBusinessMetrics
    {| business.Weight := 500.0%float; business.Hydration := 0%float; business.Accuracy := 95.5%float;
       business.Ingredients := ["flour"]; business.RecipeType := "pizza" |}
    ([] : DomainLog)
  = [ CallRecordDoughWeight 500.0%float; CallRecordDoughAccuracy 95.5%float;
      CallIncrementRecipeTypes "pizza";
      CallIncrementIngredientValidations "flour" true ].
Proof. reflexivity. Qed.

(** * Further properties *)

(** ** The parser *)

(** X1.  [splitMethod] splits at the last slash and loses nothing: a string
    without a slash comes back whole, and any other string comes back as
    the part before its last slash and the slash-free part after it. *)
Theorem splitMethod_splits_at_last_slash (s : string) :
  (address.hasByte "/" s = false ∧ splitMethod s = Returns [s]) ∨
  (∃ a b, s = a +:+ "/" +:+ b ∧ address.hasByte "/" b = false ∧
          splitMethod s = Returns [a; b]).
Proof.
  destruct (last_slash_decomposition s) as [Hno | (a & b & -> & Hno)].
  - left. split; [exact Hno | now apply splitMethod_no_slash].
  - right. exists a, b. split; [reflexivity|]. split; [exact Hno|].
    now apply splitMethod_last_slash.
Qed.






(** Every address is either well formed or malformed, and is parsed
    accordingly. *)
Lemma extractMethodName_cases (fullMethod : string) :
  (∃ service method,
     fullMethod = "/" +:+ service +:+ "/" +:+ method ∧
     address.hasByte "/" method = false ∧
     (2 <= length (address.segments service))%nat ∧
     extractMethodName fullMethod = Returns method) ∨
  (address.Malformed fullMethod ∧ extractMethodName fullMethod = Returns "unknown").
Proof.
  destruct fullMethod as [|c t].
  { right. split; [constructor | reflexivity]. }
  destruct (Ascii.eqb_spec c "/") as [->|Hc].
  - destruct (last_slash_decomposition t) as [Hno | (a & b & -> & Hno)].
    + right. split; [now apply (address.NoMethodPart t)|].
      now apply extractMethodName_no_method.
    + destruct (le_lt_dec 2 (length (address.segments a))) as [Hsegs|Hsegs].
      * left. exists a, b. repeat split; try assumption.
        now apply extractMethodName_wellformed.
      * right. split; [now apply (address.ShortServicePath a b)|].
        rewrite extractMethodName_split by assumption.
        now apply Nat.leb_gt in Hsegs as ->.
  - right. split; [now constructor|].
    now apply extractMethodName_no_leading_slash.
Qed.

(** X3.  The malformed addresses are all the addresses that are not of the
    form ["/" service "/" method] with a slash-free method and at least two
    segments in the service path: an address of that form yields its
    method, every other address is malformed and yields ["unknown"]. *)
Theorem extractMethodName_wellformed_or_malformed (fullMethod : string) :
  (∃ service method,
     fullMethod = "/" +:+ service +:+ "/" +:+ method ∧
     address.hasByte "/" method = false ∧
     (2 <= length (address.segments service))%nat ∧
     extractMethodName fullMethod = Returns method) ∨
  (address.Malformed fullMethod ∧ extractMethodName fullMethod = Returns "unknown").
Proof. apply extractMethodName_cases. Qed.

(** X4.  The name that [extractMethodName] returns never contains a slash,
    and it is either the sentinel or what follows the last slash of the
    address. *)
Theorem extractMethodName_result_has_no_slash (fullMethod name : string) :
  extractMethodName fullMethod = Returns name →
  address.hasByte "/" name = false ∧
  (name = "unknown" ∨ ∃ pre, fullMethod = pre +:+ "/" +:+ name).
Proof.
  intros Hname.
  destruct (extractMethodName_cases fullMethod)
    as [(service & method & -> & Hno & _ & Hrun) | (_ & Hrun)];
    rewrite Hrun in Hname; injection Hname as <-.
  - split; [exact Hno|]. right. exists ("/" +:+ service). reflexivity.
  - split; [reflexivity | now left].
Qed.

Lemma extractMethodName_result_witness :
  address.hasByte "/" "CalculateDough" = false ∧
  ("CalculateDough" = "unknown" ∨
   ∃ pre, "/calculator.CalculatorService/CalculateDough" = pre +:+ "/" +:+ "CalculateDough").
Proof.
  exact (extractMethodName_result_has_no_slash
           "/calculator.CalculatorService/CalculateDough" "CalculateDough" eq_refl).
Defined.

(** ** The classifier and the taxonomy *)

(** X5.  The two tables of the classifier agree: an address is a business
    address exactly when its calculation type is not the sentinel
    ["unknown_calculation"]. *)
Theorem business_iff_known_type (fullMethod : string) :
  isCalculationMethod fullMethod = true ↔
  getCalculationType fullMethod ≠ "unknown_calculation".
Proof.
  unfold isCalculationMethod, getCalculationType. simpl.
  destruct (String.eqb fullMethod "/calculator.CalculatorService/CalculateDough");
    [split; [discriminate | reflexivity]|].
  destruct (String.eqb fullMethod "/calculator.CalculatorService/CalculateIngredients");
    [split; [discriminate | reflexivity]|].
  destruct (String.eqb fullMethod "/calculator.CalculatorService/OptimizeRecipe");
    [split; [discriminate | reflexivity]|].
  split; [discriminate | intros Hne; now contradiction Hne].
Qed.

(** X6.  The domain label is one of six, and on the four codes that both
    channels name the two labels go together: invalid_argument with
    invalid_input, not_found with recipe_not_found, internal_error with
    calculation_error, unavailable with service_unavailable. *)
Theorem channels_pair_up (err : error) :
  In (getErrorType err)
     ["unknown_error"; "invalid_input"; "recipe_not_found"; "calculation_error";
      "service_unavailable"; "timeout"] ∧
  (getStatusCode err = "invalid_argument" ↔ getErrorType err = "invalid_input") ∧
  (getStatusCode err = "not_found" ↔ getErrorType err = "recipe_not_found") ∧
  (getStatusCode err = "internal_error" ↔ getErrorType err = "calculation_error") ∧
  (getStatusCode err = "unavailable" ↔ getErrorType err = "service_unavailable").
Proof.
  destruct err as [[[] m|m]|]; simpl;
    (split; [tauto|]); repeat split; intros; first [reflexivity | discriminate].
Qed.

(** ** The recorder, once and in a loop *)

(** X7.  Whatever the result, [RecordCalculation] first increments the total
    and records the duration, in this order, and it never sets the in-flight
    gauge nor increments a recipe type. *)
Theorem RecordCalculation_total_then_duration {Ctx : Type} (ctx : Ctx)
    (log : DomainLog) (result : CalculationResult) :
  ∃ rest,
    metrics (RecordCalculation (NewMetricsRecorder log) ctx result) =
    log ++ [ CallIncrementCalculationsTotal (Type_ result);
             CallRecordCalculationDuration (Type_ result) (Duration result) ] ++ rest ∧
    calls isGauge rest = 0 ∧
    calls isRecipeType rest = 0.
Proof.
  rewrite RecordCalculation_log.
  destruct (Success result); unfold recordedOnSuccess, recordedOnFailure.
  - eexists. split; [reflexivity|].
    rewrite !calls_app, !calls_validations_none by reflexivity.
    now destruct (gtZero (Weight result)), (gtZero (Hydration result)),
      (gtZero (Accuracy result)).
  - eexists. split; [reflexivity|]. now split.
Qed.

Lemma RecordCalculation_log_any {Ctx : Type} (ctx : Ctx)
    (r : MetricsRecorder DomainLog) (result : CalculationResult) :
  metrics (RecordCalculation r ctx result) = metrics r ++ recordedOf result.
Proof. destruct r as [log]. apply (RecordCalculation_log ctx log result). Qed.

Lemma recordAll_log {Ctx : Type} (ctx : Ctx) (results : list CalculationResult)
    (r : MetricsRecorder DomainLog) :
  metrics (recordAll r ctx results) = metrics r ++ flat_map recordedOf results.
Proof.
  revert r. induction results as [|result rest IH]; intros r; simpl.
  - now rewrite app_nil_r.
  - now rewrite IH, RecordCalculation_log_any, <- app_assoc.
Qed.

Lemma recordAll_replay {M Ctx : Type} `{CalculatorMetrics M} (ctx : Ctx)
    (results : list CalculationResult) (r : MetricsRecorder M) :
  metrics (recordAll r ctx results) = replay (flat_map recordedOf results) (metrics r).
Proof.
  revert r. induction results as [|result rest IH]; intros r; simpl; [reflexivity|].
  rewrite IH, replay_app. f_equal.
  destruct r as [m]. apply (RecordCalculation_replay ctx m result).
Qed.

Lemma recordedWeights_app (l1 l2 : DomainLog) :
  recordedWeights (l1 ++ l2) = recordedWeights l1 ++ recordedWeights l2.
Proof.
  induction l1 as [|c l1 IH]; [reflexivity|].
  destruct c; simpl; now rewrite ?IH.
Qed.

Lemma recordedWeights_validations (names : list string) :
  recordedWeights (map (λ i, CallIncrementIngredientValidations i true) names) = [].
Proof. induction names as [|i names IH]; [reflexivity | exact IH]. Qed.

Lemma calls_recordedOf_total (t : string) (r : CalculationResult) :
  calls (isTotalOf t) (recordedOf r) = if String.eqb (Type_ r) t then 1 else 0.
Proof.
  unfold recordedOf, recordedOnSuccess, recordedOnFailure.
  destruct (Success r).
  - rewrite !calls_app, !calls_validations_none by reflexivity.
    unfold calls. simpl.
    now destruct (String.eqb (Type_ r) t), (gtZero (Weight r)),
      (gtZero (Hydration r)), (gtZero (Accuracy r)).
  - unfold calls. simpl. now destruct (String.eqb (Type_ r) t).
Qed.

Lemma calls_recordedOf_duration (t : string) (r : CalculationResult) :
  calls (isDurationOf t) (recordedOf r) = if String.eqb (Type_ r) t then 1 else 0.
Proof.
  unfold recordedOf, recordedOnSuccess, recordedOnFailure.
  destruct (Success r).
  - rewrite !calls_app, !calls_validations_none by reflexivity.
    unfold calls. simpl.
    now destruct (String.eqb (Type_ r) t), (gtZero (Weight r)),
      (gtZero (Hydration r)), (gtZero (Accuracy r)).
  - unfold calls. simpl. now destruct (String.eqb (Type_ r) t).
Qed.

Lemma calls_recordedOf_error (t e : string) (r : CalculationResult) :
  calls (isErrorOf t e) (recordedOf r) =
  if negb (Success r) && String.eqb (Type_ r) t && String.eqb (ErrorType r) e
  then 1 else 0.
Proof.
  unfold recordedOf, recordedOnSuccess, recordedOnFailure.
  destruct (Success r).
  - rewrite !calls_app, !calls_validations_none by reflexivity.
    unfold calls. simpl.
    now destruct (gtZero (Weight r)), (gtZero (Hydration r)), (gtZero (Accuracy r)).
  - unfold calls. simpl.
    now destruct (String.eqb (Type_ r) t), (String.eqb (ErrorType r) e).
Qed.

Lemma calls_recordedOf_gauge (r : CalculationResult) :
  calls isGauge (recordedOf r) = 0.
Proof.
  unfold recordedOf, recordedOnSuccess, recordedOnFailure.
  destruct (Success r); [|reflexivity].
  rewrite !calls_app, !calls_validations_none by reflexivity.
  now destruct (gtZero (Weight r)), (gtZero (Hydration r)), (gtZero (Accuracy r)).
Qed.

Lemma calls_recordedOf_recipe (r : CalculationResult) :
  calls isRecipeType (recordedOf r) = 0.
Proof.
  unfold recordedOf, recordedOnSuccess, recordedOnFailure.
  destruct (Success r); [|reflexivity].
  rewrite !calls_app, !calls_validations_none by reflexivity.
  now destruct (gtZero (Weight r)), (gtZero (Hydration r)), (gtZero (Accuracy r)).
Qed.

Lemma recordedWeights_recordedOf (r : CalculationResult) :
  recordedWeights (recordedOf r) =
  if Success r && gtZero (Weight r) then [Weight r] else [].
Proof.
  unfold recordedOf, recordedOnSuccess, recordedOnFailure.
  destruct (Success r); [|reflexivity].
  rewrite !recordedWeights_app, recordedWeights_validations.
  now destruct (gtZero (Weight r)), (gtZero (Hydration r)), (gtZero (Accuracy r)).
Qed.

(** Counting over the results of a loop. *)
Lemma calls_flat_map (p : DomainCall → bool) (q : CalculationResult → bool)
    (results : list CalculationResult) :
  (∀ r, calls p (recordedOf r) = if q r then 1 else 0) →
  calls p (flat_map recordedOf results) = length (List.filter q results).
Proof.
  intros Hpq. induction results as [|r rest IH]; [reflexivity|].
  simpl. rewrite calls_app, Hpq, IH. now destruct (q r).
Qed.

Lemma calls_flat_map_none (p : DomainCall → bool) (results : list CalculationResult) :
  (∀ r, calls p (recordedOf r) = 0) →
  calls p (flat_map recordedOf results) = 0.
Proof.
  intros Hp. induction results as [|r rest IH]; [reflexivity|].
  simpl. now rewrite calls_app, Hp, IH.
Qed.

Lemma recordedWeights_flat_map (results : list CalculationResult) :
  recordedWeights (flat_map recordedOf results) =
  map Weight (List.filter (λ r, Success r && gtZero (Weight r)) results).
Proof.
  induction results as [|r rest IH]; [reflexivity|].
  simpl. rewrite recordedWeights_app, recordedWeights_recordedOf, IH.
  now destruct (Success r && gtZero (Weight r)).
Qed.

(** X8.  Recording a list of results one after the other increments the
    total of a type once for each result of that type, records as many
    durations, increments the error counter of (type, kind) once for each
    failed result of that type and kind, and records the weights of the
    successful results that have one, in the order of the list. *)
Theorem recordAll_aggregates {Ctx : Type} (ctx : Ctx) (log : DomainLog)
    (results : list CalculationResult) (t e : string) :
  ∃ new,
    metrics (recordAll (NewMetricsRecorder log) ctx results) = log ++ new ∧
    calls (isTotalOf t) new
      = length (List.filter (λ r, String.eqb (Type_ r) t) results) ∧
    calls (isDurationOf t) new
      = length (List.filter (λ r, String.eqb (Type_ r) t) results) ∧
    calls (isErrorOf t e) new
      = length (List.filter
                  (λ r, negb (Success r) && String.eqb (Type_ r) t
                        && String.eqb (ErrorType r) e) results) ∧
    recordedWeights new
      = map Weight (List.filter (λ r, Success r && gtZero (Weight r)) results).
Proof.
  exists (flat_map recordedOf results). split; [apply recordAll_log|].
  split; [apply calls_flat_map, calls_recordedOf_total|].
  split; [apply calls_flat_map, calls_recordedOf_duration|].
  split; [apply calls_flat_map, calls_recordedOf_error|].
  apply recordedWeights_flat_map.
Qed.

(** ** The mock sink *)

Lemma wrap_in_range (z : Z) :
  (- 2 ^ 63 <= z < 2 ^ 63)%Z → goint.wrap z = z.
Proof.
  intros Hz. unfold goint.wrap. rewrite Z.mod_small; lia.
Qed.

Lemma iter_increments (n : nat) (x : Z) :
  (- 2 ^ 63 <= x)%Z → (x + Z.of_nat n < 2 ^ 63)%Z →
  Nat.iter n (λ y, goint.add y 1) x = (x + Z.of_nat n)%Z.
Proof.
  revert x. induction n as [|n IH]; intros x Hlo Hhi.
  - simpl. lia.
  - rewrite Nat.iter_succ_r. unfold goint.add at 2.
    rewrite wrap_in_range by lia. rewrite IH; lia.
Qed.

Lemma mock_incr_lookup `{Countable K} (k k' : K) (m : gmap K Z) :
  default 0%Z (mock.incr k m !! k') =
  if decide (k = k') then goint.add (default 0%Z (m !! k)) 1
  else default 0%Z (m !! k').
Proof.
  unfold mock.incr. destruct (decide (k = k')) as [->|Hne].
  - now rewrite lookup_insert_eq.
  - now rewrite lookup_insert_ne.
Qed.

Lemma mock_total_perform (c : DomainCall) (m : mock.MockCalculatorMetrics)
    (t : string) :
  mock.GetCalculationsTotal (perform c m) t =
  if isTotalOf t c then goint.add (mock.GetCalculationsTotal m t) 1
  else mock.GetCalculationsTotal m t.
Proof.
  destruct c; try reflexivity. simpl. unfold mock.GetCalculationsTotal. simpl.
  rewrite mock_incr_lookup.
  destruct (decide (calculationType = t)) as [->|Hne].
  - now rewrite String.eqb_refl.
  - now apply String.eqb_neq in Hne as ->.
Qed.

Lemma mock_total_replay (log : DomainLog) (m : mock.MockCalculatorMetrics)
    (t : string) :
  mock.GetCalculationsTotal (replay log m) t =
  Nat.iter (calls (isTotalOf t) log) (λ y, goint.add y 1)
    (mock.GetCalculationsTotal m t).
Proof.
  revert m. induction log as [|c log IH]; intros m; [reflexivity|].
  cbn [replay]. rewrite IH, mock_total_perform.
  unfold calls. cbn [List.filter].
  destruct (isTotalOf t c); [|reflexivity].
  cbn [length]. now rewrite Nat.iter_succ_r.
Qed.

Lemma mock_weights_replay (log : DomainLog) (m : mock.MockCalculatorMetrics) :
  mock.doughWeights (replay log m) = mock.doughWeights m ++ recordedWeights log.
Proof.
  revert m. induction log as [|c log IH]; intros m; simpl.
  - now rewrite app_nil_r.
  - rewrite IH. destruct c; simpl; try reflexivity. now rewrite <- app_assoc.
Qed.

Lemma mock_gauge_replay (log : DomainLog) (m : mock.MockCalculatorMetrics) :
  calls isGauge log = 0 →
  mock.activeCalculations (replay log m) = mock.activeCalculations m.
Proof.
  revert m. unfold calls.
  induction log as [|c log IH]; intros m Hnone; [reflexivity|].
  simpl in *. destruct c; simpl in *; try discriminate; now rewrite IH.
Qed.

Lemma mock_recipes_replay (log : DomainLog) (m : mock.MockCalculatorMetrics) :
  calls isRecipeType log = 0 →
  mock.recipeTypes (replay log m) = mock.recipeTypes m.
Proof.
  revert m. unfold calls.
  induction log as [|c log IH]; intros m Hnone; [reflexivity|].
  simpl in *. destruct c; simpl in *; try discriminate; now rewrite IH.
Qed.

(** X9.  On the mock sink, recording a list of results raises the total of
    a type by the number of results of that type (as long as the counter
    stays within [int]), appends the weights of the successful results that
    have one, and leaves the in-flight gauge and the recipe types as they
    were. *)
Theorem recordAll_on_mock {Ctx : Type} (ctx : Ctx) (m : mock.MockCalculatorMetrics)
    (results : list CalculationResult) (t : string) :
  let n := Z.of_nat (length (List.filter (λ r, String.eqb (Type_ r) t) results)) in
  (- 2 ^ 63 <= mock.GetCalculationsTotal m t)%Z →
  (mock.GetCalculationsTotal m t + n < 2 ^ 63)%Z →
  let m' := metrics (recordAll (NewMetricsRecorder m) ctx results) in
  mock.GetCalculationsTotal m' t = (mock.GetCalculationsTotal m t + n)%Z ∧
  mock.doughWeights m' =
    mock.doughWeights m
    ++ map Weight (List.filter (λ r, Success r && gtZero (Weight r)) results) ∧
  mock.activeCalculations m' = mock.activeCalculations m ∧
  mock.recipeTypes m' = mock.recipeTypes m.
Proof.
  intros n Hlo Hhi m'. subst m'. rewrite recordAll_replay. cbn [metrics NewMetricsRecorder].
  split; [|split; [|split]].
  - rewrite mock_total_replay.
    rewrite (calls_flat_map _ _ results (calls_recordedOf_total t)).
    now apply iter_increments.
  - now rewrite mock_weights_replay, recordedWeights_flat_map.
  - apply mock_gauge_replay, calls_flat_map_none, calls_recordedOf_gauge.
  - apply mock_recipes_replay, calls_flat_map_none, calls_recordedOf_recipe.
Qed.

Lemma recordAll_on_mock_witness :
  let m' := metrics (recordAll (NewMetricsRecorder mock.NewMockCalculatorMetrics)
                       tt threeCalculations) in
  mock.GetCalculationsTotal m' "dough_calculation" = 3%Z ∧
  mock.doughWeights m' = [500.0%float; 750.0%float] ∧
  mock.activeCalculations m' = 0%Z ∧
  mock.recipeTypes m' = ∅.
Proof.
  apply (recordAll_on_mock tt mock.NewMockCalculatorMetrics threeCalculations
           "dough_calculation"); vm_compute; [discriminate | reflexivity].
Defined.

Lemma mock_errors_increment (m : mock.MockCalculatorMetrics) (t e t' e' : string) :
  mock.GetCalculationErrors (mock.mockIncrementCalculationErrors t e m) t' e' =
  if decide (t = t' ∧ e = e') then goint.add (mock.GetCalculationErrors m t e) 1
  else mock.GetCalculationErrors m t' e'.
Proof.
  unfold mock.GetCalculationErrors, mock.mockIncrementCalculationErrors, mock.incr2.
  cbn [mock.calculationErrors].
  destruct (decide (t = t')) as [<-|Ht].
  - rewrite lookup_insert_eq, mock_incr_lookup.
    destruct (decide (e = e')) as [<-|He].
    + rewrite decide_True by done.
      now destruct (mock.calculationErrors m !! t).
    + rewrite decide_False by (intros [_ ?]; done).
      now destruct (mock.calculationErrors m !! t).
  - rewrite lookup_insert_ne by done.
    now rewrite decide_False by (intros [? _]; done).
Qed.

(** X10.  The error counters of the mock: a pair that was never incremented
    reads zero; incrementing (type, kind) raises that counter by one, as an
    [int] does, and leaves the counter of every other pair as it was, also
    when the type had no counter before. *)
Theorem mock_error_counter (m : mock.MockCalculatorMetrics) (t e t' e' : string) :
  mock.GetCalculationErrors mock.NewMockCalculatorMetrics t e = 0%Z ∧
  mock.GetCalculationErrors (mock.mockIncrementCalculationErrors t e m) t' e' =
  if decide (t = t' ∧ e = e') then goint.add (mock.GetCalculationErrors m t e) 1
  else mock.GetCalculationErrors m t' e'.
Proof. split; [reflexivity | apply mock_errors_increment]. Qed.

Lemma mock_push_lookup `{Countable K} {A : Type} (k k' : K) (x : A)
    (m : gmap K (list A)) :
  default [] (mock.push k x m !! k') =
  if decide (k = k') then default [] (m !! k) ++ [x] else default [] (m !! k').
Proof.
  unfold mock.push. destruct (decide (k = k')) as [->|Hne].
  - now rewrite lookup_insert_eq.
  - now rewrite lookup_insert_ne.
Qed.

(** ** [recordBusinessMetrics] *)

Lemma recordBusinessMetrics_log (b : BusinessMetrics) (log : DomainLog) :
  recordBusinessMetrics b log = log ++ recordedBusiness b.
Proof.
  unfold recordBusinessMetrics, recordedBusiness.
  rewrite validateIngredients_log.
  destruct (gtZero (business.Weight b)), (gtZero (business.Hydration b)),
    (gtZero (business.Accuracy b)), (String.eqb (business.RecipeType b) "");
    simpl; now rewrite <- ?app_assoc.
Qed.

(** X11.  [recordBusinessMetrics] sends quality records only: the weight,
    the hydration and the accuracy each when it is greater than zero, the
    recipe type when it is not empty, and one validation with
    [valid = true] for each ingredient, in this order. *)
Theorem recordBusinessMetrics_records_quality_only (b : BusinessMetrics)
    (log : DomainLog) :
  let new :=
    (if gtZero (business.Weight b)
     then [CallRecordDoughWeight (business.Weight b)] else [])
    ++ (if gtZero (business.Hydration b)
        then [CallRecordDoughHydration (business.Hydration b)] else [])
    ++ (if gtZero (business.Accuracy b)
        then [CallRecordDoughAccuracy (business.Accuracy b)] else [])
    ++ (if String.eqb (business.RecipeType b) "" then []
        else [CallIncrementRecipeTypes (business.RecipeType b)])
    ++ map (λ i, CallIncrementIngredientValidations i true) (business.Ingredients b) in
  recordBusinessMetrics b log = log ++ new ∧
  Forall (λ c, isQuality c = true) new.
Proof.
  intros new. split; [apply recordBusinessMetrics_log|].
  subst new. repeat apply Forall_app_2.
  - destruct (gtZero (business.Weight b)); repeat constructor.
  - destruct (gtZero (business.Hydration b)); repeat constructor.
  - destruct (gtZero (business.Accuracy b)); repeat constructor.
  - destruct (String.eqb (business.RecipeType b) ""); repeat constructor.
  - induction (business.Ingredients b); repeat constructor. assumption.
Qed.

(** X12.  The recorder and the middleware agree on the quality records: a
    successful result is recorded as its total and its duration followed by
    what [recordBusinessMetrics] sends for the same weight, hydration,
    accuracy and ingredients without a recipe type. *)
Theorem RecordCalculation_agrees_with_recordBusinessMetrics {Ctx : Type}
    (ctx : Ctx) (log : DomainLog) (result : CalculationResult) :
  Success result = true →
  metrics (RecordCalculation (NewMetricsRecorder log) ctx result) =
  recordBusinessMetrics
    {| business.Weight := Weight result;
       business.Hydration := Hydration result;
       business.Accuracy := Accuracy result;
       business.Ingredients := IngredientsUsed result;
       business.RecipeType := "" |}
    (log ++ [ CallIncrementCalculationsTotal (Type_ result);
              CallRecordCalculationDuration (Type_ result) (Duration result) ]).
Proof.
  intros Hok. rewrite RecordCalculation_log, Hok, recordBusinessMetrics_log.
  unfold recordedOnSuccess, recordedBusiness. cbn.
  now rewrite <- !app_assoc.
Qed.

Lemma RecordCalculation_agrees_witness :
  metrics (RecordCalculation (NewMetricsRecorder ([] : DomainLog)) tt partialData) =
  recordBusinessMetrics
    {| business.Weight := 0%float;
       business.Hydration := 65.0%float;
       business.Accuracy := 0%float;
       business.Ingredients := ["flour"];
       business.RecipeType := "" |}
    [ CallIncrementCalculationsTotal "quick_calculation";
      CallRecordCalculationDuration "quick_calculation" 25000000%Z ].
Proof.
  exact (RecordCalculation_agrees_with_recordBusinessMetrics tt [] partialData eq_refl).
Defined.

(** ** The unary interceptor, call by call *)

Lemma typeOf_domainCallsOf (fullMethod : string) (e : error) (d : time.Duration) :
  Forall (λ c, ∀ t, typeOf c = Some t →
               In t ["dough_calculation"; "ingredient_calculation";
                     "recipe_optimization"])
         (domainCallsOf fullMethod e d).
Proof.
  unfold domainCallsOf.
  destruct (isCalculationMethod fullMethod) eqn:Hbusiness; [|constructor].
  apply isCalculationMethod_iff in Hbusiness.
  assert (Hty : In (getCalculationType fullMethod)
                   ["dough_calculation"; "ingredient_calculation";
                    "recipe_optimization"]).
  { simpl in Hbusiness. destruct Hbusiness as [<-|[<-|[<-|[]]]]; simpl; tauto. }
  destruct e; cbn [app];
    repeat (apply List.Forall_cons;
            [intros t Ht; cbn in Ht;
             first [discriminate | injection Ht as <-; exact Hty]|]);
    apply List.Forall_nil.
Qed.

Section InterceptorCalls.

Context {Ctx Req Resp W : Type} `{time.Clock W}.
Variables (ctx : Ctx) (req : Req) (info : UnaryServerInfo).
Variables (handler : UnaryHandler Ctx Req Resp W) (w : W).
Variables (resp : Resp) (err : error) (w' : W).
Hypothesis handler_returns : handler ctx req w = ((resp, err), w').

Abbreviation elapsed := (time.Since (time.Now w) w').

(** X13.  Every call, business or not, is recorded once on the technical
    sink: one request count under the parsed method name and the status
    label of the handler's error, then one duration under the same name. *)
Theorem every_call_has_one_technical_record (dlog : DomainLog) (tlog : GRPCLog) :
  ∃ name m',
    extractMethodName (FullMethod info) = Returns name ∧
    UnaryServerInterceptor (NewMetricsMiddleware dlog tlog) ctx req info handler w =
    Returns ((resp, err), m', w') ∧
    prometheusMetrics m' =
    tlog ++ [ CallIncrementGRPCRequests name (getStatusCode err);
              CallRecordGRPCDuration name elapsed ].
Proof.
  destruct (UnaryServerInterceptor_logs ctx req info handler w resp err w'
              handler_returns dlog tlog) as (name & Hname & Hrun).
  exists name. eexists. split; [exact Hname|]. split; [exact Hrun | reflexivity].
Qed.

(** X14.  A business call sends its domain sink, in this order: the gauge
    set to 1, the gauge set to -1, and then either the total and the
    duration of its type (no error) or the error counter of its type and
    error kind (error).  The duration is the one the technical sink gets. *)
Theorem business_call_domain_sequence (dlog : DomainLog) (tlog : GRPCLog) :
  isCalculationMethod (FullMethod info) = true →
  ∃ name m',
    UnaryServerInterceptor (NewMetricsMiddleware dlog tlog) ctx req info handler w =
    Returns ((resp, err), m', w') ∧
    domainMetrics m' =
    dlog ++ [ CallSetActiveCalculations 1; CallSetActiveCalculations (-1) ]
         ++ match err with
            | None =>
                [ CallIncrementCalculationsTotal
                    (getCalculationType (FullMethod info));
                  CallRecordCalculationDuration
                    (getCalculationType (FullMethod info)) elapsed ]
            | Some _ =>
                [ CallIncrementCalculationErrors
                    (getCalculationType (FullMethod info)) (getErrorType err) ]
            end ∧
    last (prometheusMetrics m') = Some (CallRecordGRPCDuration name elapsed).
Proof.
  intros Hbusiness.
  destruct (UnaryServerInterceptor_logs ctx req info handler w resp err w'
              handler_returns dlog tlog) as (name & _ & Hrun).
  exists name. eexists. split; [exact Hrun|]. cbn [domainMetrics prometheusMetrics].
  split.
  - unfold domainCallsOf. rewrite Hbusiness. now destruct err.
  - now rewrite last_app.
Qed.

(** X15.  Whatever the address and the outcome, every total, duration and
    error that the interceptor records is recorded under one of the three
    calculation types, never under ["unknown_calculation"]. *)
Theorem interceptor_records_known_types_only (dlog : DomainLog) (tlog : GRPCLog) :
  ∃ new m',
    UnaryServerInterceptor (NewMetricsMiddleware dlog tlog) ctx req info handler w =
    Returns ((resp, err), m', w') ∧
    domainMetrics m' = dlog ++ new ∧
    Forall (λ c, ∀ t, typeOf c = Some t →
                 In t ["dough_calculation"; "ingredient_calculation";
                       "recipe_optimization"]) new.
Proof.
  destruct (UnaryServerInterceptor_logs ctx req info handler w resp err w'
              handler_returns dlog tlog) as (name & _ & Hrun).
  exists (domainCallsOf (FullMethod info) err elapsed). eexists.
  split; [exact Hrun|]. split; [reflexivity|]. apply typeOf_domainCallsOf.
Qed.

(** X16.  On the mock sink, a business call that succeeds raises the total
    of its type by one and appends its duration, and touches no error
    counter; one that fails raises the error counter of its type and error
    kind by one and touches no total and no duration.  In both cases the
    weights, hydrations, accuracies, ingredient validations and recipe types
    stay as they were. *)
Theorem business_call_on_mock
    (m : MetricsMiddleware mock.MockCalculatorMetrics GRPCLog)
    (t e : string) :
  isCalculationMethod (FullMethod info) = true →
  ∃ m',
    UnaryServerInterceptor m ctx req info handler w = Returns ((resp, err), m', w') ∧
    let calculationType := getCalculationType (FullMethod info) in
    let before := domainMetrics m in
    let after := domainMetrics m' in
    match err with
    | None =>
        mock.GetCalculationsTotal after t =
          (if decide (calculationType = t)
           then goint.add (mock.GetCalculationsTotal before t) 1
           else mock.GetCalculationsTotal before t) ∧
        mock.GetCalculationDurations after t =
          (if decide (calculationType = t)
           then mock.GetCalculationDurations before t ++ [elapsed]
           else mock.GetCalculationDurations before t) ∧
        mock.GetCalculationErrors after t e = mock.GetCalculationErrors before t e
    | Some _ =>
        mock.GetCalculationsTotal after t = mock.GetCalculationsTotal before t ∧
        mock.GetCalculationDurations after t = mock.GetCalculationDurations before t ∧
        mock.GetCalculationErrors after t e =
          (if decide (calculationType = t ∧ getErrorType err = e)
           then goint.add
                  (mock.GetCalculationErrors before calculationType (getErrorType err)) 1
           else mock.GetCalculationErrors before t e)
    end ∧
    mock.doughWeights after = mock.doughWeights before ∧
    mock.doughHydrations after = mock.doughHydrations before ∧
    mock.doughAccuracies after = mock.doughAccuracies before ∧
    mock.ingredientValidations after = mock.ingredientValidations before ∧
    mock.recipeTypes after = mock.recipeTypes before.
Proof.
  intros Hbusiness.
  destruct (UnaryServerInterceptor_run ctx req info handler w resp err w'
              handler_returns m) as (name & _ & Hrun).
  eexists. split; [exact Hrun|]. cbn [domainMetrics].
  unfold domainCallsOf. rewrite Hbusiness.
  destruct err as [ev|]; cbn [app replay perform].
  - split; [|now repeat split]. split; [reflexivity|]. split; [reflexivity|].
    etransitivity; [exact (mock_errors_increment _ _ _ t e) | reflexivity].
  - split; [|now repeat split]. split; [|split; [|reflexivity]].
    + unfold mock.GetCalculationsTotal. cbn. rewrite mock_incr_lookup.
      now destruct (decide (getCalculationType (FullMethod info) = t)) as [<-|].
    + unfold mock.GetCalculationDurations. cbn. rewrite mock_push_lookup.
      now destruct (decide (getCalculationType (FullMethod info) = t)) as [<-|].
Qed.

End InterceptorCalls.

Lemma business_call_domain_sequence_witness :
  ∃ name m',
    UnaryServerInterceptor loggingMiddleware tt "test request" doughInfo
      failingHandler 0%Z =
    Returns ((None, Some (StatusError codes.InvalidArgument "invalid input")),
             m', 0%Z) ∧
    domainMetrics m' =
    [ CallSetActiveCalculations 1; CallSetActiveCalculations (-1);
      CallIncrementCalculationErrors "dough_calculation" "invalid_input" ] ∧
    last (prometheusMetrics m') = Some (CallRecordGRPCDuration name 0%Z).
Proof.
  exact (business_call_domain_sequence tt "test request" doughInfo failingHandler
           0%Z _ _ _ eq_refl [] [] eq_refl).
Defined.

Lemma every_call_technical_witness :
  ∃ name m',
    extractMethodName (FullMethod healthInfo) = Returns name ∧
    UnaryServerInterceptor loggingMiddleware tt "test request" healthInfo
      failingHandler 0%Z =
    Returns ((None, Some (StatusError codes.InvalidArgument "invalid input")),
             m', 0%Z) ∧
    prometheusMetrics m' =
    [ CallIncrementGRPCRequests name "invalid_argument";
      CallRecordGRPCDuration name 0%Z ].
Proof.
  exact (every_call_has_one_technical_record tt "test request" healthInfo
           failingHandler 0%Z _ _ _ eq_refl [] []).
Defined.

Lemma known_types_witness :
  ∃ new m',
    UnaryServerInterceptor loggingMiddleware tt "test request" doughInfo
      succeedingHandler 0%Z =
    Returns ((Some "success response", None), m', 10000000%Z) ∧
    domainMetrics m' = new ∧
    Forall (λ c, ∀ t, typeOf c = Some t →
                 In t ["dough_calculation"; "ingredient_calculation";
                       "recipe_optimization"]) new.
Proof.
  exact (interceptor_records_known_types_only tt "test request" doughInfo
           succeedingHandler 0%Z _ _ _ eq_refl [] []).
Defined.

Lemma business_call_on_mock_witness :
  ∃ m',
    UnaryServerInterceptor testMiddleware tt "test request" doughInfo
      succeedingHandler 0%Z =
    Returns ((Some "success response", None), m', 10000000%Z) ∧
    (mock.GetCalculationsTotal (domainMetrics m') "dough_calculation" = 1%Z ∧
     mock.GetCalculationDurations (domainMetrics m') "dough_calculation"
       = [10000000%Z] ∧
     mock.GetCalculationErrors (domainMetrics m') "dough_calculation" "invalid_input"
       = 0%Z) ∧
    mock.doughWeights (domainMetrics m') = [] ∧
    mock.doughHydrations (domainMetrics m') = [] ∧
    mock.doughAccuracies (domainMetrics m') = [] ∧
    mock.ingredientValidations (domainMetrics m') = ∅ ∧
    mock.recipeTypes (domainMetrics m') = ∅.
Proof.
  exact (business_call_on_mock tt "test request" doughInfo succeedingHandler 0%Z
           _ _ _ eq_refl testMiddleware "dough_calculation" "invalid_input" eq_refl).
Defined.

(** ** The stream interceptor *)

Section StreamInterceptor.

Context {Srv Stream W : Type} `{time.Clock W}.
Variables (srv : Srv) (stream : Stream) (info : stream.StreamServerInfo).
Variables (handler : StreamHandler Srv Stream W) (w : W).
Variables (err : error) (w' : W).
Hypothesis stream_handler_returns : handler srv stream w = (err, w').

(** X17.  The stream interceptor returns the error of the stream handler,
    records one request count and one duration on the technical sink, and
    leaves the domain sink as it was, for a business address as for any
    other. *)
Theorem stream_call_is_technical_only {D : Type} (d : D) (tlog : GRPCLog) :
  ∃ name,
    extractMethodName (stream.FullMethod info) = Returns name ∧
    StreamServerInterceptor (NewMetricsMiddleware d tlog) srv stream info handler w =
    Returns
      (err,
       {| domainMetrics := d;
          prometheusMetrics :=
            tlog ++ [ CallIncrementGRPCRequests name (getStatusCode err);
                      CallRecordGRPCDuration name (time.Since (time.Now w) w') ] |},
       w').
Proof.
  destruct (extractMethodName_total (stream.FullMethod info)) as [name Hname].
  exists name. split; [exact Hname|].
  unfold StreamServerInterceptor.
  rewrite stream_handler_returns, Hname. cbn.
  unfold onPrometheus, NewMetricsMiddleware. cbn.
  now rewrite <- app_assoc.
Qed.

End StreamInterceptor.

Lemma stream_call_witness :
  ∃ name,
    extractMethodName (stream.FullMethod doughStream) = Returns name ∧
    StreamServerInterceptor (NewMetricsMiddleware mock.NewMockCalculatorMetrics [])
      tt tt doughStream failingStream 0%Z =
    Returns
      (Some (StatusError codes.Unavailable "service down"),
       {| domainMetrics := mock.NewMockCalculatorMetrics;
          prometheusMetrics :=
            [ CallIncrementGRPCRequests name "unavailable";
              CallRecordGRPCDuration name 1000000000%Z ] |},
       1000000000%Z).
Proof.
  exact (stream_call_is_technical_only tt tt doughStream failingStream 0%Z _ _
           eq_refl mock.NewMockCalculatorMetrics []).
Defined.

(** ** The dough calculator service *)

Section Service.

Context {Pan : Type} `{application.Strategies Pan}.

(** Both steps succeed for [item]. *)
Abbreviation succeeds item :=
  (application.supported item = true ∧ application.calculable item = true).

Lemma range_all_succeed (items : list Pan) (result : application.Pans Pan) :
  Forall (λ item, succeeds item) items →
  application.TotalDoughWeightByPans_range items result =
  (Some {| application.Pans_ :=
             application.Pans_ result ++ map application.computed items;
           application.TotalArea :=
             fold_left (λ acc pan, PrimFloat.add acc (application.Area pan))
               (map application.computed items) (application.TotalArea result) |},
   None).
Proof.
  revert result. induction items as [|item rest IH]; intros result Hall.
  - simpl. rewrite app_nil_r. now destruct result.
  - inversion Hall as [|? ? [Hsup Hcal] Hrest]; subst.
    unfold application.supported, application.calculable in Hsup, Hcal.
    cbn [application.TotalDoughWeightByPans_range map fold_left].
    assert (Hpan : application.computed item =
                   fst (application.Calculate
                          (fst (application.GetStrategy (application.Shape item)))
                          (application.Measures_ item))) by reflexivity.
    destruct (application.GetStrategy (application.Shape item)) as [strategy e1].
    destruct e1 as [?|]; [discriminate|]. cbn [fst snd] in *.
    destruct (application.Calculate strategy (application.Measures_ item))
      as [pan e2].
    destruct e2 as [?|]; [discriminate|]. cbn [fst] in Hpan.
    rewrite IH, Hpan by assumption. cbn [application.Pans_ application.TotalArea].
    now rewrite <- app_assoc.
Qed.

Lemma range_first_failure (good rest : list Pan) (bad : Pan)
    (result : application.Pans Pan) :
  Forall (λ item, succeeds item) good →
  application.supported bad = false ∨ application.calculable bad = false →
  application.TotalDoughWeightByPans_range (good ++ bad :: rest) result =
  (None,
   Some (PlainError (if application.supported bad
                     then "error processing pan" else "unsupported shape"))).
Proof.
  revert result. induction good as [|item good IH]; intros result Hgood Hbad.
  - cbn [app application.TotalDoughWeightByPans_range].
    unfold application.supported, application.calculable in *.
    destruct (application.GetStrategy (application.Shape bad)) as [strategy e1].
    destruct e1 as [?|]; [reflexivity|]. cbn [fst snd] in *.
    destruct (application.Calculate strategy (application.Measures_ bad))
      as [pan e2].
    destruct e2 as [?|]; [reflexivity|]. cbn [snd] in Hbad.
    now destruct Hbad.
  - inversion Hgood as [|? ? [Hsup Hcal] Hrest]; subst.
    unfold application.supported, application.calculable in Hsup, Hcal.
    cbn [app application.TotalDoughWeightByPans_range].
    destruct (application.GetStrategy (application.Shape item)) as [strategy e1].
    destruct e1 as [?|]; [discriminate|]. cbn [fst snd] in *.
    destruct (application.Calculate strategy (application.Measures_ item))
      as [pan e2].
    destruct e2 as [?|]; [discriminate|].
    now apply IH.
Qed.

(** A list of pans either succeeds throughout or has a first pan that
    fails. *)
Lemma first_failure (items : list Pan) :
  Forall (λ item, succeeds item) items ∨
  ∃ good bad rest,
    items = good ++ bad :: rest ∧
    Forall (λ item, succeeds item) good ∧
    (application.supported bad = false ∨ application.calculable bad = false).
Proof.
  induction items as [|item items [Hall | (good & bad & rest & -> & Hgood & Hbad)]].
  - left. constructor.
  - destruct (application.supported item) eqn:Hsup;
      [destruct (application.calculable item) eqn:Hcal|].
    + left. now constructor.
    + right. exists [], item, items. repeat split; [constructor | now right].
    + right. exists [], item, items. repeat split; [constructor | now left].
  - destruct (application.supported item) eqn:Hsup;
      [destruct (application.calculable item) eqn:Hcal|].
    + right. exists (item :: good), bad, rest.
      repeat split; [now constructor | exact Hbad].
    + right. exists [], item, (good ++ bad :: rest).
      repeat split; [constructor | now right].
    + right. exists [], item, (good ++ bad :: rest).
      repeat split; [constructor | now left].
Qed.

(** X18.  When every pan of the request has a strategy and is calculated
    without error, [TotalDoughWeightByPans] returns the calculated pans in
    the order of the request, with no error, and the total area is the sum
    of their areas, added from the left starting at zero; the total area of
    the request is not read. *)
Theorem TotalDoughWeightByPans_success {Ctx : Type} (ctx : Ctx)
    (body : application.Pans Pan) :
  (∀ item, In item (application.Pans_ body) → succeeds item) →
  application.TotalDoughWeightByPans ctx body =
  (Some {| application.Pans_ := map application.computed (application.Pans_ body);
           application.TotalArea :=
             application.totalArea
               (map application.computed (application.Pans_ body)) |},
   None).
Proof.
  intros Hall. unfold application.TotalDoughWeightByPans.
  rewrite range_all_succeed; [reflexivity|].
  apply List.Forall_forall. exact Hall.
Qed.

(** X19.  The first pan that fails decides the outcome: the service returns
    no result and the error ["unsupported shape"] when that pan has no
    strategy, ["error processing pan"] when its calculation fails; the pans
    calculated before it are dropped and the pans after it are not looked
    at. *)
Theorem TotalDoughWeightByPans_first_failure {Ctx : Type} (ctx : Ctx)
    (body : application.Pans Pan) (good rest : list Pan) (bad : Pan) :
  application.Pans_ body = good ++ bad :: rest →
  (∀ item, In item good → succeeds item) →
  application.supported bad = false ∨ application.calculable bad = false →
  application.TotalDoughWeightByPans ctx body =
  (None,
   Some (PlainError (if application.supported bad
                     then "error processing pan" else "unsupported shape"))).
Proof.
  intros Hbody Hgood Hbad. unfold application.TotalDoughWeightByPans.
  rewrite Hbody. apply range_first_failure; [|exact Hbad].
  apply List.Forall_forall. exact Hgood.
Qed.

(** X20.  [TotalDoughWeightByPans] returns either a result and no error, or
    no result and one of its two errors.  It returns a result exactly when
    every pan succeeds, and the result then has one pan for each pan of the
    request. *)
Theorem TotalDoughWeightByPans_result_or_error {Ctx : Type} (ctx : Ctx)
    (body : application.Pans Pan) :
  (∃ result,
     application.TotalDoughWeightByPans ctx body = (Some result, None) ∧
     Forall (λ item, succeeds item) (application.Pans_ body) ∧
     length (application.Pans_ result) = length (application.Pans_ body)) ∨
  (∃ message,
     application.TotalDoughWeightByPans ctx body = (None, Some (PlainError message)) ∧
     ¬ Forall (λ item, succeeds item) (application.Pans_ body) ∧
     (message = "unsupported shape" ∨ message = "error processing pan")).
Proof.
  destruct (first_failure (application.Pans_ body))
    as [Hall | (good & bad & rest & Hbody & Hgood & Hbad)].
  - left. eexists. split; [|split; [exact Hall|]].
    + unfold application.TotalDoughWeightByPans. now apply range_all_succeed.
    + cbn. now rewrite length_map.
  - right. eexists. split; [|split].
    + unfold application.TotalDoughWeightByPans. rewrite Hbody.
      now apply range_first_failure.
    + rewrite Hbody. intros Hall.
      apply Forall_app in Hall as [_ Hall].
      inversion Hall as [|? ? [Hsup Hcal] _]; subst.
      destruct Hbad; congruence.
    + destruct (application.supported bad); tauto.
Qed.

End Service.

Lemma TotalDoughWeightByPans_success_witness :
  application.TotalDoughWeightByPans tt
    {| application.Pans_ := [squareOf 2; squareOf 3];
       application.TotalArea := 100%float |} =
  (Some {| application.Pans_ :=
             [ {| squareShape := "square"; squareSide := Some 2%float;
                  squareArea := 4%float |};
               {| squareShape := "square"; squareSide := Some 3%float;
                  squareArea := 9%float |} ];
           application.TotalArea := 13%float |},
   None).
Proof.
  rewrite (TotalDoughWeightByPans_success tt
             {| application.Pans_ := [squareOf 2; squareOf 3];
                application.TotalArea := 100%float |}).
  - vm_compute. reflexivity.
  - intros item [<-|[<-|[]]]; split; reflexivity.
Defined.

Lemma TotalDoughWeightByPans_failure_witness :
  application.TotalDoughWeightByPans tt
    {| application.Pans_ := [squareOf 2; roundPan; squareOf 3];
       application.TotalArea := 0%float |} =
  (None, Some (PlainError "unsupported shape")).
Proof.
  rewrite (TotalDoughWeightByPans_first_failure tt
             {| application.Pans_ := [squareOf 2; roundPan; squareOf 3];
                application.TotalArea := 0%float |}
             [squareOf 2] [squareOf 3] roundPan eq_refl).
  - reflexivity.
  - intros item [<-|[]]; split; reflexivity.
  - left. reflexivity.
Defined.

(** ** [PrometheusMetrics] *)

Lemma NewPrometheusMetrics_built (r r' : prometheus.Registry)
    (m : infraMetrics.PrometheusMetrics) :
  infraMetrics.NewPrometheusMetrics r = Returns (m, r') →
  infraMetrics.labelNames m = infraMetrics.declaredLabels ∧
  "calculator_calculations_total" ∈ r'.
Proof.
  intros Hnew. registrations Hnew.
  injection Hnew as <- <-. split; [reflexivity | set_solver].
Qed.

Lemma invoke_returns (c : infraMetrics.MethodCall) (m : infraMetrics.PrometheusMetrics) :
  infraMetrics.labelNames m = infraMetrics.declaredLabels →
  ∃ m', infraMetrics.invoke c m = Returns m' ∧
        infraMetrics.labelNames m' = infraMetrics.declaredLabels.
Proof.
  unfold infraMetrics.labelNames, infraMetrics.declaredLabels. cbn [map].
  intros [= H1 H2 H3 H4 H5 H6 H7 H8 H9 H10 H11].
  destruct c as [[]|[]]; cbn [infraMetrics.invoke]; prometheus_methods;
    rewrite ?H1, ?H2, ?H4, ?H6, ?H9, ?H10, ?H11; cbn;
    (eexists; split; [reflexivity|]); cbn; congruence.
Qed.

Lemma invokeAll_returns (cs : list infraMetrics.MethodCall)
    (m : infraMetrics.PrometheusMetrics) :
  infraMetrics.labelNames m = infraMetrics.declaredLabels →
  ∃ m', infraMetrics.invokeAll cs m = Returns m' ∧
        infraMetrics.labelNames m' = infraMetrics.declaredLabels.
Proof.
  revert m. induction cs as [|c cs IH]; intros m Hm; [now exists m|].
  destruct (invoke_returns c m Hm) as (m1 & Hrun & Hm1).
  cbn [infraMetrics.invokeAll]. rewrite Hrun. cbn [obind]. now apply IH.
Qed.

(** X21.  On metrics built by [NewPrometheusMetrics], every sequence of
    calls of the eleven methods returns: each method gives
    [WithLabelValues] as many label values as its collector declares label
    names, whatever the arguments, so the label count never makes a call
    panic. *)
Theorem prometheus_methods_match_label_count (r r' : prometheus.Registry)
    (m : infraMetrics.PrometheusMetrics) (cs : list infraMetrics.MethodCall) :
  infraMetrics.NewPrometheusMetrics r = Returns (m, r') →
  ∃ m', infraMetrics.invokeAll cs m = Returns m' ∧
        infraMetrics.labelNames m' = infraMetrics.declaredLabels.
Proof.
  intros Hnew. apply invokeAll_returns.
  now destruct (NewPrometheusMetrics_built r r' m Hnew).
Qed.

(** X22.  [NewPrometheusMetrics] can be called once for a registry: after a
    call that returned, the names are registered, and a second call panics
    at its first registration. *)
Theorem NewPrometheusMetrics_only_once (r r' : prometheus.Registry)
    (m : infraMetrics.PrometheusMetrics) :
  infraMetrics.NewPrometheusMetrics r = Returns (m, r') →
  ∃ reason, infraMetrics.NewPrometheusMetrics r' = Panics reason.
Proof.
  intros Hnew. destruct (NewPrometheusMetrics_built r r' m Hnew) as [_ Hin].
  unfold infraMetrics.NewPrometheusMetrics, prometheus.New.
  rewrite decide_True by exact Hin. cbn [obind]. eauto.
Qed.

(** X23.  The two interfaces act on different collectors: a method of the
    domain interface leaves the two gRPC collectors as they were, and a
    method of the technical interface leaves the nine domain collectors as
    they were. *)
Theorem prometheus_interfaces_are_disjoint (c : infraMetrics.MethodCall)
    (m m' : infraMetrics.PrometheusMetrics) :
  infraMetrics.invoke c m = Returns m' →
  match c with
  | infraMetrics.Domain _ =>
      infraMetrics.grpcRequestsTotal m' = infraMetrics.grpcRequestsTotal m ∧
      infraMetrics.grpcRequestDuration m' = infraMetrics.grpcRequestDuration m
  | infraMetrics.Technical _ =>
      infraMetrics.calculationsTotal m' = infraMetrics.calculationsTotal m ∧
      infraMetrics.calculationDuration m' = infraMetrics.calculationDuration m ∧
      infraMetrics.activeCalculations m' = infraMetrics.activeCalculations m ∧
      infraMetrics.calculationErrors m' = infraMetrics.calculationErrors m ∧
      infraMetrics.doughAccuracy m' = infraMetrics.doughAccuracy m ∧
      infraMetrics.ingredientValidations m' = infraMetrics.ingredientValidations m ∧
      infraMetrics.doughWeight m' = infraMetrics.doughWeight m ∧
      infraMetrics.doughHydration m' = infraMetrics.doughHydration m ∧
      infraMetrics.recipeTypes m' = infraMetrics.recipeTypes m
  end.
Proof.
  destruct c as [[]|[]]; cbn [infraMetrics.invoke]; prometheus_methods;
    repeat match goal with
      | |- context [(?a =? ?b)%nat] => destruct (a =? b)%nat
      end;
    cbn [obind]; intros [= <-]; repeat split.
Qed.

(** X24.  [IncrementIngredientValidations] keeps valid and invalid apart:
    it adds one increment to the series of the ingredient labelled with the
    flag that was passed (["true"] or ["false"]), and leaves the series of
    the same ingredient with the other flag as it was. *)
Theorem ingredient_validations_by_flag (ingredient : string) (valid : bool)
    (m m' : infraMetrics.PrometheusMetrics) :
  infraMetrics.IncrementIngredientValidations ingredient valid m = Returns m' →
  let label b := if b : bool then "true" else "false" in
  prometheus.history (infraMetrics.ingredientValidations m') [ingredient; label valid]
  = prometheus.history (infraMetrics.ingredientValidations m) [ingredient; label valid]
    ++ [prometheus.Inc] ∧
  prometheus.history (infraMetrics.ingredientValidations m')
    [ingredient; label (negb valid)]
  = prometheus.history (infraMetrics.ingredientValidations m)
      [ingredient; label (negb valid)].
Proof.
  unfold infraMetrics.IncrementIngredientValidations, prometheus.WithLabelValues.
  destruct (_ =? _)%nat; cbn [obind]; intros [= <-].
  cbn [infraMetrics.ingredientValidations infraMetrics.withIngredientValidations].
  unfold prometheus.history, prometheus.apply. cbn [prometheus.series].
  split.
  - now rewrite lookup_insert_eq.
  - rewrite lookup_insert_ne; [reflexivity|]. now destruct valid.
Qed.

(** *** On the metrics built for an empty registry *)

Lemma prometheus_methods_witness :
  ∃ m r',
    infraMetrics.NewPrometheusMetrics ∅ = Returns (m, r') ∧
    ∃ m',
      infraMetrics.invokeAll
        [ infraMetrics.Domain (CallIncrementCalculationErrors "dough_calculation" "timeout");
          infraMetrics.Technical (CallIncrementGRPCRequests "CalculateDough" "error") ]
        m = Returns m' ∧
      infraMetrics.labelNames m' = infraMetrics.declaredLabels.
Proof.
  eexists. eexists. split; [reflexivity|].
  exact (prometheus_methods_match_label_count ∅ _ _ _ eq_refl).
Defined.

Lemma NewPrometheusMetrics_twice_witness :
  ∃ m r',
    infraMetrics.NewPrometheusMetrics ∅ = Returns (m, r') ∧
    ∃ reason, infraMetrics.NewPrometheusMetrics r' = Panics reason.
Proof.
  eexists. eexists. split; [reflexivity|].
  exact (NewPrometheusMetrics_only_once ∅ _ _ eq_refl).
Defined.

Lemma prometheus_disjoint_witness :
  ∃ m r',
    infraMetrics.NewPrometheusMetrics ∅ = Returns (m, r') ∧
    ∃ m',
      infraMetrics.invoke (infraMetrics.Domain (CallSetActiveCalculations 5)) m
      = Returns m' ∧
      infraMetrics.grpcRequestsTotal m' = infraMetrics.grpcRequestsTotal m ∧
      infraMetrics.grpcRequestDuration m' = infraMetrics.grpcRequestDuration m.
Proof.
  eexists. eexists. split; [reflexivity|].
  eexists. split; [reflexivity|].
  exact (prometheus_interfaces_are_disjoint
           (infraMetrics.Domain (CallSetActiveCalculations 5)) _ _ eq_refl).
Defined.

Lemma ingredient_validations_witness :
  ∃ m r',
    infraMetrics.NewPrometheusMetrics ∅ = Returns (m, r') ∧
    ∃ m',
      infraMetrics.IncrementIngredientValidations "flour" false m = Returns m' ∧
      prometheus.history (infraMetrics.ingredientValidations m') ["flour"; "false"]
      = prometheus.history (infraMetrics.ingredientValidations m) ["flour"; "false"]
        ++ [prometheus.Inc] ∧
      prometheus.history (infraMetrics.ingredientValidations m') ["flour"; "true"]
      = prometheus.history (infraMetrics.ingredientValidations m) ["flour"; "true"].
Proof.
  eexists. eexists. split; [reflexivity|].
  eexists. split; [reflexivity|].
  refine (ingredient_validations_by_flag "flour" false _ _ _). reflexivity.
Defined.

(** [TestPrometheusMetrics_SetActiveCalculations]: the gauge holds what was
    set last. *)
Example prometheus_gauge_is_overwritten :
  ∃ m r' m',
    infraMetrics.NewPrometheusMetrics ∅ = Returns (m, r') ∧
    infraMetrics.invokeAll
      [ infraMetrics.Domain (CallSetActiveCalculations 5);
        infraMetrics.Domain (CallSetActiveCalculations 3) ] m = Returns m' ∧
    last (prometheus.history (infraMetrics.activeCalculations m') [])
    = Some (prometheus.SetTo (prometheus.Count 3)).
Proof. do 3 eexists. split; [reflexivity|]. split; reflexivity. Qed.
